(** * scaleapi: the client of the Scale task-annotation API

    A shallow embedding of [scaleapi/__init__.py]: the exception classes,
    the paginated containers and the methods of [ScaleClient], written as
    functions in a state-and-exception monad whose state is the network
    (the requests sent so far and the server that answers them). *)

From Stdlib Require Import ZArith List String Ascii Bool Lia DecimalString.
Import ListNotations.
Local Open Scope string_scope.
Local Open Scope Z_scope.

(** ** Python values *)

(** Values as [r.json()] decodes them and as callers pass them in keyword
    arguments. [JNull] is Python's [None]. A number that is not an integer
    is kept as its literal: the client never computes with numbers. A
    decoded object is a [dict]: its keys are pairwise distinct and kept in
    insertion order. *)
#[local] Set Warnings "-register-all".
Inductive json : Type :=
| JNull
| JBool (b : bool)
| JInt (z : Z)
| JFloat (lit : string)
| JStr (s : string)
| JArr (items : list json)
| JObj (fields : list (string * json)).

(** A keyword-argument dictionary ([**kwargs]) as the body of a method
    receives it, in insertion order. *)
Definition kwargs := list (string * json).

Fixpoint dict_get (k : string) (d : list (string * json)) : option json :=
  match d with
  | [] => None
  | (k', v) :: d' => if String.eqb k k' then Some v else dict_get k d'
  end.

Definition dict_keys (d : list (string * json)) : list string := map fst d.

(** Membership in a set of strings ([key in allowed_kwargs]). *)
Definition str_in (k : string) (s : list string) : bool :=
  existsb (String.eqb k) s.

(** ** Exception classes *)

Inductive pyclass : Type :=
| BaseException
| Exception
| LookupError
| KeyError
| TypeError
| AttributeError
| ValueError
| ScaleException
| ScaleInvalidRequest.

Definition pyclass_eqb (c d : pyclass) : bool :=
  match c, d with
  | BaseException, BaseException
  | Exception, Exception
  | LookupError, LookupError
  | KeyError, KeyError
  | TypeError, TypeError
  | AttributeError, AttributeError
  | ValueError, ValueError
  | ScaleException, ScaleException
  | ScaleInvalidRequest, ScaleInvalidRequest => true
  | _, _ => false
  end.

(** The base classes of each class, as in its [class] statement:
    [class ScaleException(Exception)],
    [class ScaleInvalidRequest(ScaleException, ValueError)]; the others are
    Python's built-in hierarchy. *)
Definition bases (c : pyclass) : list pyclass :=
  match c with
  | BaseException => []
  | Exception => [BaseException]
  | LookupError => [Exception]
  | KeyError => [LookupError]
  | TypeError => [Exception]
  | AttributeError => [Exception]
  | ValueError => [Exception]
  | ScaleException => [Exception]
  | ScaleInvalidRequest => [ScaleException; ValueError]
  end.

Fixpoint issubclass_upto (depth : nat) (c d : pyclass) : bool :=
  pyclass_eqb c d ||
  match depth with
  | O => false
  | S n => existsb (fun b => issubclass_upto n b d) (bases c)
  end.

(** The hierarchy above is four levels deep. *)
Definition issubclass : pyclass -> pyclass -> bool := issubclass_upto 4.

(** An exception instance. A [ScaleError] is an instance of
    [ScaleException] or of its subclass, built by [ScaleException.__init__]:
    [msg] is the argument given to [Exception.__init__] (what [str] shows)
    and [code] the attribute [self.code] ([None] is Python's [None]). A
    [PyError] is raised by the interpreter or by the HTTP library; a
    [KeyError] carries the missing key, the text of the others is not
    modelled. *)
Inductive pyexc : Type :=
| ScaleError (cls : pyclass) (msg : string) (code : option Z)
| PyError (cls : pyclass) (arg : option string).

Definition exc_class (e : pyexc) : pyclass :=
  match e with
  | ScaleError cls _ _ => cls
  | PyError cls _ => cls
  end.

Definition exc_message (e : pyexc) : option string :=
  match e with
  | ScaleError _ msg _ => Some msg
  | PyError _ arg => arg
  end.

(** The attribute [code]; the outer [None] is an exception without it. *)
Definition exc_code (e : pyexc) : option (option Z) :=
  match e with
  | ScaleError _ _ code => Some code
  | PyError _ _ => None
  end.

(** ** The network *)

Inductive http_method : Type := GET | POST.

(** The arguments of [requests.get] and [requests.post]. *)
Record request : Type := mkRequest {
  req_method : http_method;
  req_url : string;
  req_headers : list (string * string);
  req_auth : string * string;
  req_params : option kwargs;
  req_json : option kwargs
}.

(** What the client reads of a response: [r.status_code], [r.text] and
    [r.json()], which is [Some v] when the body decodes to [v] and [None]
    when decoding raises [ValueError]. *)
Record response : Type := mkResponse {
  status_code : Z;
  text : string;
  json_body : option json
}.

(** The requests sent so far, oldest first, and the server: its answer may
    depend on what it has received before. *)
Record world : Type := mkWorld {
  sent : list request;
  net : list request -> request -> response
}.

(** ** Computations that send requests and may raise *)

Inductive outcome (A : Type) : Type :=
| Return (a : A)
| Raise (e : pyexc).
Arguments Return {A} a.
Arguments Raise {A} e.

Definition M (A : Type) : Type := world -> outcome A * world.

Definition ret {A} (a : A) : M A := fun w => (Return a, w).

Definition raise {A} (e : pyexc) : M A := fun w => (Raise e, w).

Definition bind {A B} (m : M A) (k : A -> M B) : M B :=
  fun w =>
    match m w with
    | (Return a, w') => k a w'
    | (Raise e, w') => (Raise e, w')
    end.

Definition lift {A} (o : outcome A) : M A := fun w => (o, w).

Declare Scope py_scope.
Delimit Scope py_scope with py.
Notation "x <- m ;; k" := (bind m (fun x => k))
  (at level 100, m at next level, right associativity) : py_scope.
Notation "m ;;; k" := (bind m (fun _ => k))
  (at level 100, right associativity) : py_scope.

(** [try: m except cls as e: h e]. *)
Definition try_except {A} (m : M A) (cls : pyclass) (h : pyexc -> M A) : M A :=
  fun w =>
    match m w with
    | (Raise e, w') =>
        if issubclass (exc_class e) cls then h e w' else (Raise e, w')
    | r => r
    end.

(** One round trip: the request is recorded and the server answers. What
    the HTTP library may raise by itself (no connection, a value it cannot
    encode) is left out: every request gets a response. *)
Definition send (req : request) : M response :=
  fun w => (Return (net w (sent w) req),
            mkWorld (sent w ++ [req]) (net w)).

(** ** Operations of the interpreter *)

(** [v[k]] for a string [k]: only a [dict] can be indexed by a string. *)
Definition py_getitem (v : json) (k : string) : outcome json :=
  match v with
  | JObj fields =>
      match dict_get k fields with
      | Some x => Return x
      | None => Raise (PyError KeyError (Some k))
      end
  | _ => Raise (PyError TypeError None)
  end.

(** [v.get(k)]: a method of [dict] only; [None] for a missing key. *)
Definition py_get (v : json) (k : string) : outcome json :=
  match v with
  | JObj fields =>
      match dict_get k fields with
      | Some x => Return x
      | None => Return JNull
      end
  | _ => Raise (PyError AttributeError None)
  end.

Fixpoint chars (s : string) : list json :=
  match s with
  | EmptyString => []
  | String c s' => JStr (String c EmptyString) :: chars s'
  end.

(** [for x in v]: a list yields its items, a [dict] its keys, a string its
    characters (here those of its ASCII representation); the other values
    are not iterable. *)
Definition py_iter (v : json) : outcome (list json) :=
  match v with
  | JArr items => Return items
  | JObj fields => Return (map JStr (dict_keys fields))
  | JStr s => Return (chars s)
  | _ => Raise (PyError TypeError None)
  end.

(** [r.json()]. *)
Definition r_json (r : response) : outcome json :=
  match json_body r with
  | Some v => Return v
  | None => Raise (PyError ValueError None)
  end.

(** [params or {}]: [None] and the empty dictionary are falsy. *)
Definition or_empty (d : option kwargs) : kwargs :=
  match d with
  | Some (kv :: rest) => kv :: rest
  | _ => []
  end.

(** [str] of an integer. *)
Definition str_of_int (z : Z) : string := NilZero.string_of_int (Z.to_int z).

(** ** Module constants *)

Definition TASK_TYPES : list string :=
  [ "annotation";
    "audiotranscription";
    "categorization";
    "comparison";
    "cuboidannotation";
    "datacollection";
    "imageannotation";
    "lineannotation";
    "namedentityrecognition";
    "pointannotation";
    "polygonannotation";
    "segmentannotation";
    "transcription";
    "videoannotation";
    "videoboxannotation";
    "videocuboidannotation" ].

Definition SCALE_ENDPOINT : string := "https://api.scale.com/v1/".
Definition DEFAULT_LIMIT : Z := 100.
Definition DEFAULT_OFFSET : Z := 0.

(** ** Containers and wrappers *)

Record ScaleClient : Type := mkScaleClient { api_key : string }.

(** Modelled from the spec: the class [Task] of [scaleapi/tasks.py] is not
    among the sources. The spec has it as a value object that decorates one
    JSON document and keeps a reference to the client that made it. *)
Record Task : Type := new_Task {
  task_param : json;
  task_client : ScaleClient
}.

(** Modelled from the spec: the class [Batch] of [scaleapi/batches.py] is
    not among the sources; the spec gives it the shape of [Task]. *)
Record Batch : Type := new_Batch {
  batch_param : json;
  batch_client : ScaleClient
}.

(** [class Paginator(list)]: [elems] is the content of the list itself
    ([list.__init__(docs)]), the others are the attributes that [__init__]
    sets. *)
Record Paginator (E : Type) : Type := mkPaginator {
  elems : list E;
  docs : list E;
  total : json;
  limit : json;
  offset : json;
  has_more : json;
  next_token : json
}.
Arguments mkPaginator {E}.
Arguments elems {E}.
Arguments docs {E}.
Arguments total {E}.
Arguments limit {E}.
Arguments offset {E}.
Arguments has_more {E}.
Arguments next_token {E}.

Definition Paginator_init {E} (docs0 : list E)
    (total0 limit0 offset0 has_more0 next_token0 : json) : Paginator E :=
  mkPaginator docs0 docs0 total0 limit0 offset0 has_more0 next_token0.

Definition Tasklist : Type := Paginator Task.
Definition Batchlist : Type := Paginator Batch.

(** ** The client *)

Section Client.

(** [str] on a decoded value that is not a string (a number, a list, a
    [dict], ...): the interpreter's, and a parameter of the development. *)
Variable py_str : json -> string.

(** ['{}'.format(v)]: a string is inserted as it is. *)
Definition format_value (v : json) : string :=
  match v with
  | JStr s => s
  | _ => py_str v
  end.

(** ['{}'.format(errcode)] for an integer or [None]. *)
Definition format_code (errcode : option Z) : string :=
  match errcode with
  | Some z => str_of_int z
  | None => "None"
  end.

(** [ScaleException.__init__], inherited by [ScaleInvalidRequest]; [cls] is
    the class being instantiated. *)
Definition ScaleException_init (cls : pyclass) (message : json)
    (errcode : option Z) : pyexc :=
  ScaleError cls
    ("<Response [" ++ format_code errcode ++ "]> " ++ format_value message)
    errcode.

Definition json_headers : list (string * string) :=
  [("Content-Type", "application/json")].

(** The [else] branch shared, word for word, by [_getrequest] and
    [_postrequest]. *)
Definition raise_for_response {A} (r : response) : M A :=
  (error <- try_except
              (body <- lift (r_json r) ;; lift (py_getitem body "error"))
              ValueError
              (fun _ => ret (JStr (text r))) ;;
   if status_code r =? 400
   then raise (ScaleException_init ScaleInvalidRequest error
                 (Some (status_code r)))
   else raise (ScaleException_init ScaleException error
                 (Some (status_code r))))%py.

Definition _getrequest (self : ScaleClient) (endpoint : string)
    (params : option kwargs) : M json :=
  (let params := or_empty params in
   r <- send (mkRequest GET (SCALE_ENDPOINT ++ endpoint) json_headers
                (api_key self, "") (Some params) None) ;;
   if status_code r =? 200
   then lift (r_json r)
   else raise_for_response r)%py.

Definition _postrequest (self : ScaleClient) (endpoint : string)
    (payload : option kwargs) : M json :=
  (let payload := or_empty payload in
   r <- send (mkRequest POST (SCALE_ENDPOINT ++ endpoint) json_headers
                (api_key self, "") None (Some payload)) ;;
   if status_code r =? 200
   then lift (r_json r)
   else raise_for_response r)%py.

Definition fetch_task (self : ScaleClient) (task_id : string) : M Task :=
  (d <- _getrequest self ("task/" ++ task_id) None ;;
   ret (new_Task d self))%py.

Definition cancel_task (self : ScaleClient) (task_id : string) : M Task :=
  (d <- _postrequest self ("task/" ++ task_id ++ "/cancel") None ;;
   ret (new_Task d self))%py.

Definition tasks_allowed_kwargs : list string :=
  [ "start_time"; "end_time"; "status"; "type"; "project";
    "batch"; "limit"; "offset"; "completed_before"; "completed_after";
    "next_token"; "customer_review_status"; "updated_before";
    "updated_after" ].

Definition list_batches_allowed_kwargs : list string :=
  [ "start_time"; "end_time"; "status"; "project";
    "batch"; "limit"; "offset" ].

(** The loop [for key in kwargs: if key not in allowed_kwargs: raise ...],
    the same in [tasks] and in [list_batches], message included. *)
Fixpoint check_kwargs (allowed_kwargs : list string) (keys : list string)
    : outcome unit :=
  match keys with
  | [] => Return tt
  | key :: rest =>
      if str_in key allowed_kwargs
      then check_kwargs allowed_kwargs rest
      else Raise (ScaleException_init ScaleInvalidRequest
                    (JStr ("Illegal parameter " ++ key
                           ++ " for ScaleClient.tasks()"))
                    None)
  end.

(** The tail of [tasks] and [list_batches]: the wrappers for
    [response['docs']], then the five lookups in the order of the
    constructor's arguments. *)
Definition paginate {E} (wrap : json -> E) (response : json)
    : M (Paginator E) :=
  (items <- lift (py_getitem response "docs") ;;
   seq <- lift (py_iter items) ;;
   let docs0 := map wrap seq in
   total0 <- lift (py_getitem response "total") ;;
   limit0 <- lift (py_getitem response "limit") ;;
   offset0 <- lift (py_getitem response "offset") ;;
   has_more0 <- lift (py_getitem response "has_more") ;;
   next_token0 <- lift (py_get response "next_token") ;;
   ret (Paginator_init docs0 total0 limit0 offset0 has_more0 next_token0))%py.

Definition tasks (self : ScaleClient) (kw : kwargs) : M Tasklist :=
  (lift (check_kwargs tasks_allowed_kwargs (dict_keys kw)) ;;;
   response <- _getrequest self "tasks" (Some kw) ;;
   paginate (fun json => new_Task json self) response)%py.

Definition create_task (self : ScaleClient) (task_type : string)
    (kw : kwargs) : M Task :=
  (let endpoint := "task/" ++ task_type in
   taskdata <- _postrequest self endpoint (Some kw) ;;
   ret (new_Task taskdata self))%py.

Definition create_batch (self : ScaleClient)
    (project batch_name callback : json) : M Batch :=
  (let payload := [("project", project); ("name", batch_name);
                   ("callback", callback)] in
   batchdata <- _postrequest self "batches" (Some payload) ;;
   ret (new_Batch batchdata self))%py.

Definition get_batch (self : ScaleClient) (batch_name : string) : M Batch :=
  (batchdata <- _getrequest self ("batches/" ++ batch_name) None ;;
   ret (new_Batch batchdata self))%py.

Definition list_batches (self : ScaleClient) (kw : kwargs) : M Batchlist :=
  (lift (check_kwargs list_batches_allowed_kwargs (dict_keys kw)) ;;;
   response <- _getrequest self "tasks" (Some kw) ;;
   paginate (fun doc => new_Batch doc self) response)%py.

(** *** Methods added to the class after its definition *)

Definition method : Type := ScaleClient -> kwargs -> M Task.

Fixpoint setattr (name : string) (m : method) (cls : list (string * method))
    : list (string * method) :=
  match cls with
  | [] => [(name, m)]
  | (n, m') :: rest =>
      if String.eqb name n then (n, m) :: rest
      else (n, m') :: setattr name m rest
  end.

Fixpoint getattr (name : string) (cls : list (string * method))
    : option method :=
  match cls with
  | [] => None
  | (n, m) :: rest => if String.eqb name n then Some m else getattr name rest
  end.

(** A call [f(a1, ..., an, **kw)] whose positional arguments fill the
    parameters [names]: when [kw] holds one of these names the interpreter
    raises [TypeError] (multiple values for an argument) before the body of
    [f] runs. *)
Definition bind_kwargs (names : list string) (kw : kwargs) : outcome unit :=
  if existsb (fun key => str_in key names) (dict_keys kw)
  then Raise (PyError TypeError None)
  else Return tt.

(** The call [self.create_task(task_type, **kwargs)], binding included:
    [self] and [task_type] are filled by position. *)
Definition call_create_task (self : ScaleClient) (task_type : string)
    (kw : kwargs) : M Task :=
  (lift (bind_kwargs ["self"; "task_type"] kw) ;;;
   create_task self task_type kw)%py.

Definition create_task_wrapper (task_type : string) : method :=
  fun self kw => call_create_task self task_type kw.

Definition _AddTaskTypeCreator (task_type : string)
    (cls : list (string * method)) : list (string * method) :=
  setattr ("create_" ++ task_type ++ "_task") (create_task_wrapper task_type)
    cls.

(** [for taskType in TASK_TYPES: _AddTaskTypeCreator(taskType)], from a class
    that has none of these attributes yet. *)
Definition ScaleClient_creators : list (string * method) :=
  fold_left (fun cls taskType => _AddTaskTypeCreator taskType cls)
    TASK_TYPES [].

(** The names that the class body and [__init__] give to a client; the
    attributes that a client has from [object] all start with two
    underscores. *)
Definition class_body_names : list string :=
  [ "__init__"; "_getrequest"; "_postrequest"; "fetch_task"; "cancel_task";
    "tasks"; "create_task"; "create_batch"; "get_batch"; "list_batches";
    "api_key" ].

(** Calling, with keyword arguments [kw], the attribute
    [create_<task_type>_task] of a client. Such a name is none of
    [class_body_names] ([creator_names_are_fresh] below), so the attribute
    is the one that the loop above has set, and the call raises
    [AttributeError] when the loop has set none. *)
Definition call_creator (self : ScaleClient) (task_type : string)
    (kw : kwargs) : M Task :=
  match getattr ("create_" ++ task_type ++ "_task") ScaleClient_creators with
  | Some m => m self kw
  | None => raise (PyError AttributeError None)
  end.

(** *** Every operation of the client, as one type of calls *)

(** A call of a method of the class body carries the arguments that the
    body receives; [creator_call T kw] is the call of the attribute
    [create_<T>_task] with the keyword arguments [kw]. *)

Inductive call : Type :=
| fetch_task_call (task_id : string)
| cancel_task_call (task_id : string)
| tasks_call (kw : kwargs)
| create_task_call (task_type : string) (kw : kwargs)
| create_batch_call (project batch_name callback : json)
| get_batch_call (batch_name : string)
| list_batches_call (kw : kwargs)
| creator_call (task_type : string) (kw : kwargs).

Inductive result : Type :=
| ATask (t : Task)
| ABatch (b : Batch)
| ATasklist (l : Tasklist)
| ABatchlist (l : Batchlist).

Definition fmap {A B} (f : A -> B) (m : M A) : M B :=
  (x <- m ;; ret (f x))%py.

Definition run (self : ScaleClient) (c : call) : M result :=
  match c with
  | fetch_task_call task_id => fmap ATask (fetch_task self task_id)
  | cancel_task_call task_id => fmap ATask (cancel_task self task_id)
  | tasks_call kw => fmap ATasklist (tasks self kw)
  | create_task_call task_type kw => fmap ATask (create_task self task_type kw)
  | create_batch_call project batch_name callback =>
      fmap ABatch (create_batch self project batch_name callback)
  | get_batch_call batch_name => fmap ABatch (get_batch self batch_name)
  | list_batches_call kw => fmap ABatchlist (list_batches self kw)
  | creator_call task_type kw =>
      fmap ATask (call_creator self task_type kw)
  end.

(** *** The contract of section 6 of the specification, to compare with *)

Definition get_request (self : ScaleClient) (endpoint : string)
    (params : kwargs) : request :=
  mkRequest GET (SCALE_ENDPOINT ++ endpoint) json_headers (api_key self, "")
    (Some params) None.

Definition post_request (self : ScaleClient) (endpoint : string)
    (payload : kwargs) : request :=
  mkRequest POST (SCALE_ENDPOINT ++ endpoint) json_headers (api_key self, "")
    None (Some payload).

Definition all_allowed (allowed_kwargs : list string) (kw : kwargs) : bool :=
  forallb (fun key => str_in key allowed_kwargs) (dict_keys kw).

(** The request a call is to send, [None] for a call that is to fail
    before the network is reached. *)
Definition request_of (self : ScaleClient) (c : call) : option request :=
  match c with
  | fetch_task_call task_id =>
      Some (get_request self ("task/" ++ task_id) [])
  | cancel_task_call task_id =>
      Some (post_request self ("task/" ++ task_id ++ "/cancel") [])
  | tasks_call kw =>
      if all_allowed tasks_allowed_kwargs kw
      then Some (get_request self "tasks" kw) else None
  | create_task_call task_type kw =>
      Some (post_request self ("task/" ++ task_type) kw)
  | create_batch_call project batch_name callback =>
      Some (post_request self "batches"
              [("project", project); ("name", batch_name);
               ("callback", callback)])
  | get_batch_call batch_name =>
      Some (get_request self ("batches/" ++ batch_name) [])
  | list_batches_call kw =>
      if all_allowed list_batches_allowed_kwargs kw
      then Some (get_request self "tasks" kw) else None
  | creator_call task_type kw =>
      if str_in task_type TASK_TYPES
      then match bind_kwargs ["self"; "task_type"] kw with
           | Return _ => Some (post_request self ("task/" ++ task_type) kw)
           | Raise _ => None
           end
      else None
  end.

(** The message an error response carries: the field [error] of a JSON
    object, the raw text of a body that is not JSON, none otherwise. *)
Definition error_of (r : response) : option json :=
  match json_body r with
  | None => Some (JStr (text r))
  | Some (JObj fields) => dict_get "error" fields
  | Some _ => None
  end.

(** The world after one more request. *)
Definition after (w : world) (req : request) : world :=
  mkWorld (sent w ++ [req]) (net w).

(** A server that gives the same answer to every request. *)
Definition always (r : response) : world := mkWorld [] (fun _ _ => r).

(** [needle in haystack] for strings. *)
Fixpoint contains (needle haystack : string) : bool :=
  String.prefix needle haystack ||
  match haystack with
  | EmptyString => false
  | String _ rest => contains needle rest
  end.

(** What a response becomes in [_getrequest] and [_postrequest], as one
    pure function; [request_run_get] and [request_run_post] prove that it is. *)
Definition error_class (r : response) : pyclass :=
  if status_code r =? 400 then ScaleInvalidRequest else ScaleException.

Definition response_outcome (r : response) : outcome json :=
  if status_code r =? 200 then r_json r
  else
    match json_body r with
    | None =>
        Raise (ScaleException_init (error_class r) (JStr (text r))
                 (Some (status_code r)))
    | Some body =>
        match py_getitem body "error" with
        | Return v =>
            Raise (ScaleException_init (error_class r) v
                     (Some (status_code r)))
        | Raise e => Raise e
        end
    end.

(** The fields that [tasks] and [list_batches] index in a listing, in the
    order in which they do. *)
Definition required_fields : list string :=
  ["docs"; "total"; "limit"; "offset"; "has_more"].

(** The first required field that a body lacks. *)
Definition first_missing (fields : list (string * json)) : option string :=
  find (fun k => match dict_get k fields with
                 | Some _ => false
                 | None => true
                 end) required_fields.

(** *** Further vocabulary for the properties of the calls *)

(** What a call makes of the decoded body of a 200 response. *)
Definition finish (self : ScaleClient) (c : call) (d : json) : M result :=
  match c with
  | tasks_call _ =>
      fmap ATasklist (paginate (fun json => new_Task json self) d)
  | list_batches_call _ =>
      fmap ABatchlist (paginate (fun doc => new_Batch doc self) d)
  | create_batch_call _ _ _ | get_batch_call _ =>
      ret (ABatch (new_Batch d self))
  | fetch_task_call _ | cancel_task_call _ | create_task_call _ _
  | creator_call _ _ =>
      ret (ATask (new_Task d self))
  end.

(** The clients that the entities of a result refer to. *)
Definition result_clients (r : result) : list ScaleClient :=
  match r with
  | ATask t => [task_client t]
  | ABatch b => [batch_client b]
  | ATasklist l => map task_client (elems l)
  | ABatchlist l => map batch_client (elems l)
  end.

(** In a returned list, the content and the attribute [docs] agree. *)
Definition result_docs_agree (r : result) : Prop :=
  match r with
  | ATasklist l => elems l = docs l
  | ABatchlist l => elems l = docs l
  | _ => True
  end.

(** The same document and client, wrapped as a [Batch]. *)
Definition as_batch (t : Task) : Batch :=
  new_Batch (task_param t) (task_client t).

Definition as_batchlist (l : Tasklist) : Batchlist :=
  mkPaginator (map as_batch (elems l)) (map as_batch (docs l))
    (total l) (limit l) (offset l) (has_more l) (next_token l).

(** What every request of a client has in common: the key as the user
    name of HTTP basic authentication with an empty password, the JSON
    content type, a URL under [SCALE_ENDPOINT], and the arguments in
    [params] for a GET, in [json] for a POST. *)
Definition client_request (self : ScaleClient) (req : request) : Prop :=
  req_auth req = (api_key self, "") /\
  req_headers req = [("Content-Type", "application/json")] /\
  String.prefix "https://api.scale.com/v1/" (req_url req) = true /\
  match req_method req with
  | GET => req_params req <> None /\ req_json req = None
  | POST => req_params req = None /\ req_json req <> None
  end.

(** ** Data for the examples *)

(** An instance of [py_str] for the examples, none of which formats a
    value that is not a string. *)
Definition no_str : json -> string := fun _ => "".

Definition a_client : ScaleClient := mkScaleClient "live_0123".

(** The double quote, and a quoted word. *)
Definition dq : string := String (ascii_of_nat 34) EmptyString.
Definition q (s : string) : string := dq ++ s ++ dq.

(** [{"status_code": 400, "error": "bad field"}] with status 400. *)
Definition bad_field_response : response :=
  mkResponse 400
    ("{" ++ q "status_code" ++ ": 400, " ++ q "error" ++ ": "
     ++ q "bad field" ++ "}")
    (Some (JObj [("status_code", JInt 400); ("error", JStr "bad field")])).

(** The empty JSON object, with an error status. *)
Definition empty_object_response (status : Z) : response :=
  mkResponse status "{}" (Some (JObj [])).

(** A body that is not JSON, with status 500. *)
Definition exploded_response : response :=
  mkResponse 500 "server exploded" None.

Definition doc1 : json := JObj [("task_id", JStr "t1")].
Definition doc2 : json := JObj [("task_id", JStr "t2")].

(** A listing of two documents that announces [lim] as its limit. *)
Definition listing_response (lim : Z) : response :=
  mkResponse 200
    ("{" ++ q "docs" ++ ": [{" ++ q "task_id" ++ ": " ++ q "t1" ++ "}, {"
     ++ q "task_id" ++ ": " ++ q "t2" ++ "}], " ++ q "total" ++ ": 2, "
     ++ q "limit" ++ ": " ++ str_of_int lim ++ ", " ++ q "offset" ++ ": 0, "
     ++ q "has_more" ++ ": false}")
    (Some (JObj [("docs", JArr [doc1; doc2]); ("total", JInt 2);
                 ("limit", JInt lim); ("offset", JInt 0);
                 ("has_more", JBool false)])).

(** A listing that lacks [total]. *)
Definition listing_without_total : response :=
  mkResponse 200
    ("{" ++ q "docs" ++ ": [], " ++ q "limit" ++ ": 100, " ++ q "offset"
     ++ ": 0, " ++ q "has_more" ++ ": false}")
    (Some (JObj [("docs", JArr []); ("limit", JInt 100);
                 ("offset", JInt 0); ("has_more", JBool false)])).

(** The answer to a batch creation. *)
Definition batch_response : response :=
  mkResponse 200 ("{" ++ q "name" ++ ": " ++ q "b1" ++ "}")
    (Some (JObj [("name", JStr "b1")])).

Definition illegal_kw : kwargs :=
  [("status", JStr "pending"); ("color", JStr "red")].

Definition legal_kw : kwargs :=
  [("status", JStr "completed"); ("limit", JInt 100)].

(** A page that is not JSON, with status 200. *)
Definition ok_not_json_response : response :=
  mkResponse 200 "<html>ok</html>" None.

(** An error whose body is the empty JSON list. *)
Definition list_body_response : response :=
  mkResponse 502 "[]" (Some (JArr [])).

(** [{"error": "busy"}] with status 503. *)
Definition busy_response : response :=
  mkResponse 503 ("{" ++ q "error" ++ ": " ++ q "busy" ++ "}")
    (Some (JObj [("error", JStr "busy")])).

(** A listing whose [docs] is [null] and that has no other field. *)
Definition listing_null_docs : response :=
  mkResponse 200 ("{" ++ q "docs" ++ ": null}")
    (Some (JObj [("docs", JNull)])).

(** Keyword arguments that [list_batches] accepts. *)
Definition batch_kw : kwargs :=
  [("project", JStr "p"); ("limit", JInt 100)].

(** ** Lemmas on the two request functions *)

Lemma or_empty_Some (kw : kwargs) : or_empty (Some kw) = kw.
Proof. destruct kw; reflexivity. Qed.

Lemma raise_for_response_run {A} (r : response) (w : world) :
  (status_code r =? 200) = false ->
  @raise_for_response A r w =
  (match response_outcome r with
   | Return _ => Raise (PyError ValueError None)
   | Raise e => Raise e
   end, w).
Proof.
  intros H200.
  unfold raise_for_response, response_outcome, error_class, bind, try_except,
    lift, r_json, raise, ret.
  rewrite H200.
  destruct (json_body r) as [body|]; cbn.
  - unfold py_getitem.
    destruct body; cbn; try reflexivity.
    destruct (dict_get "error" fields); cbn;
      [destruct (status_code r =? 400) | ]; reflexivity.
  - destruct (status_code r =? 400); reflexivity.
Qed.

Lemma response_outcome_error (r : response) :
  (status_code r =? 200) = false ->
  exists e, response_outcome r = Raise e.
Proof.
  intros H200. unfold response_outcome. rewrite H200.
  destruct (json_body r) as [body|]; [ | eexists; reflexivity].
  destruct (py_getitem body "error"); eexists; reflexivity.
Qed.

Lemma request_run_get (self : ScaleClient) (endpoint : string)
    (params : option kwargs) (w : world) :
  let req := get_request self endpoint (or_empty params) in
  _getrequest self endpoint params w =
  (response_outcome (net w (sent w) req), after w req).
Proof.
  intros req. unfold _getrequest, bind, send. cbn zeta. fold req.
  fold (get_request self endpoint (or_empty params)). fold req.
  set (r := net w (sent w) req).
  destruct (status_code r =? 200) eqn:H200.
  - unfold response_outcome. rewrite H200. reflexivity.
  - rewrite raise_for_response_run by exact H200.
    destruct (response_outcome_error r H200) as [e He].
    rewrite He. reflexivity.
Qed.

Lemma request_run_post (self : ScaleClient) (endpoint : string)
    (payload : option kwargs) (w : world) :
  let req := post_request self endpoint (or_empty payload) in
  _postrequest self endpoint payload w =
  (response_outcome (net w (sent w) req), after w req).
Proof.
  intros req. unfold _postrequest, bind, send. cbn zeta.
  fold (post_request self endpoint (or_empty payload)). fold req.
  set (r := net w (sent w) req).
  destruct (status_code r =? 200) eqn:H200.
  - unfold response_outcome. rewrite H200. reflexivity.
  - rewrite raise_for_response_run by exact H200.
    destruct (response_outcome_error r H200) as [e He].
    rewrite He. reflexivity.
Qed.

(** ** Lemmas on the validation loop *)

Lemma check_kwargs_ok (allowed_kwargs : list string) (keys : list string) :
  forallb (fun key => str_in key allowed_kwargs) keys = true ->
  check_kwargs allowed_kwargs keys = Return tt.
Proof.
  induction keys as [|key rest IH]; cbn; [reflexivity | ].
  intros H. apply andb_true_iff in H as [Hk Hrest].
  rewrite Hk. exact (IH Hrest).
Qed.

Lemma check_kwargs_illegal (allowed_kwargs : list string)
    (keys : list string) (k : string) :
  In k keys -> str_in k allowed_kwargs = false ->
  exists key,
    In key keys /\ str_in key allowed_kwargs = false /\
    check_kwargs allowed_kwargs keys =
    Raise (ScaleError ScaleInvalidRequest
             ("<Response [None]> Illegal parameter " ++ key
              ++ " for ScaleClient.tasks()") None).
Proof.
  induction keys as [|key rest IH]; cbn; [intros [] | ].
  intros Hin Hk.
  destruct (str_in key allowed_kwargs) eqn:Hkey.
  - destruct Hin as [-> | Hin]; [congruence | ].
    destruct (IH Hin Hk) as (key' & Hin' & Hbad & Hrun).
    exists key'. auto.
  - exists key. auto.
Qed.

Lemma all_allowed_false (allowed_kwargs : list string) (kw : kwargs)
    (k : string) :
  In k (dict_keys kw) -> str_in k allowed_kwargs = false ->
  all_allowed allowed_kwargs kw = false.
Proof.
  intros Hin Hk. unfold all_allowed.
  destruct (forallb _ _) eqn:Hall; [ | reflexivity].
  rewrite forallb_forall in Hall. specialize (Hall k Hin). congruence.
Qed.

(** ** Lemmas on the listing tail *)

Lemma paginate_world {E} (wrap : json -> E) (response : json) (w : world) :
  snd (paginate wrap response w) = w.
Proof.
  unfold paginate, bind, lift, ret.
  repeat match goal with
         | |- context [match ?o with Return _ => _ | Raise _ => _ end] =>
             destruct o; cbn
         end; reflexivity.
Qed.

Lemma paginate_ok {E} (wrap : json -> E) (fields : list (string * json))
    (items : json) (seq : list json) (tot lim off hm : json) (w : world) :
  dict_get "docs" fields = Some items ->
  py_iter items = Return seq ->
  dict_get "total" fields = Some tot ->
  dict_get "limit" fields = Some lim ->
  dict_get "offset" fields = Some off ->
  dict_get "has_more" fields = Some hm ->
  paginate wrap (JObj fields) w =
  (Return (Paginator_init (map wrap seq) tot lim off hm
             (match dict_get "next_token" fields with
              | Some t => t
              | None => JNull
              end)), w).
Proof.
  intros Hd Hi Ht Hl Ho Hh.
  unfold paginate, bind, lift, ret, py_getitem, py_get.
  rewrite Hd, Hi, Ht, Hl, Ho, Hh.
  destruct (dict_get "next_token" fields); reflexivity.
Qed.

Lemma first_missing_some (fields : list (string * json)) (k : string) :
  In k required_fields -> dict_get k fields = None ->
  exists k', first_missing fields = Some k'.
Proof.
  intros Hin Hk. unfold first_missing.
  destruct (find _ required_fields) as [k'|] eqn:Hf; [eauto | ].
  pose proof (find_none _ _ Hf k Hin) as Hn. cbn in Hn.
  rewrite Hk in Hn. discriminate.
Qed.

Lemma paginate_missing {E} (wrap : json -> E) (fields : list (string * json))
    (k : string) (w : world) :
  (forall items, dict_get "docs" fields = Some items ->
                 exists seq, py_iter items = Return seq) ->
  first_missing fields = Some k ->
  paginate wrap (JObj fields) w = (Raise (PyError KeyError (Some k)), w).
Proof.
  intros Hiter Hk.
  unfold first_missing, required_fields in Hk. cbn in Hk.
  unfold paginate, bind, lift, ret, py_getitem.
  destruct (dict_get "docs" fields) as [items|] eqn:Hd;
    [ | injection Hk as <-; reflexivity].
  destruct (Hiter items eq_refl) as [seq ->].
  destruct (dict_get "total" fields);
    [ | injection Hk as <-; reflexivity].
  destruct (dict_get "limit" fields);
    [ | injection Hk as <-; reflexivity].
  destruct (dict_get "offset" fields);
    [ | injection Hk as <-; reflexivity].
  destruct (dict_get "has_more" fields);
    [ | injection Hk as <-; reflexivity].
  discriminate.
Qed.

(** A listing call whose keys are all allowed: one request, then the tail
    on the decoded body. *)
Lemma tasks_run (self : ScaleClient) (kw : kwargs) (w : world) :
  all_allowed tasks_allowed_kwargs kw = true ->
  let req := get_request self "tasks" kw in
  tasks self kw w =
  match response_outcome (net w (sent w) req) with
  | Return response =>
      paginate (fun json => new_Task json self) response (after w req)
  | Raise e => (Raise e, after w req)
  end.
Proof.
  intros Hall req. unfold tasks, bind at 1, lift.
  rewrite (check_kwargs_ok _ _ Hall). unfold bind.
  rewrite request_run_get, or_empty_Some. fold req.
  destruct (response_outcome _); reflexivity.
Qed.

Lemma list_batches_run (self : ScaleClient) (kw : kwargs) (w : world) :
  all_allowed list_batches_allowed_kwargs kw = true ->
  let req := get_request self "tasks" kw in
  list_batches self kw w =
  match response_outcome (net w (sent w) req) with
  | Return response =>
      paginate (fun doc => new_Batch doc self) response (after w req)
  | Raise e => (Raise e, after w req)
  end.
Proof.
  intros Hall req. unfold list_batches, bind at 1, lift.
  rewrite (check_kwargs_ok _ _ Hall). unfold bind.
  rewrite request_run_get, or_empty_Some. fold req.
  destruct (response_outcome _); reflexivity.
Qed.

Lemma tasks_illegal (self : ScaleClient) (kw : kwargs) (w : world)
    (k : string) :
  In k (dict_keys kw) -> str_in k tasks_allowed_kwargs = false ->
  exists key,
    In key (dict_keys kw) /\ str_in key tasks_allowed_kwargs = false /\
    tasks self kw w =
    (Raise (ScaleError ScaleInvalidRequest
              ("<Response [None]> Illegal parameter " ++ key
               ++ " for ScaleClient.tasks()") None), w).
Proof.
  intros Hin Hk.
  destruct (check_kwargs_illegal _ _ _ Hin Hk) as (key & H1 & H2 & Hrun).
  exists key. repeat split; auto.
  unfold tasks, bind, lift. rewrite Hrun. reflexivity.
Qed.

Lemma list_batches_illegal (self : ScaleClient) (kw : kwargs) (w : world)
    (k : string) :
  In k (dict_keys kw) -> str_in k list_batches_allowed_kwargs = false ->
  exists key,
    In key (dict_keys kw) /\
    str_in key list_batches_allowed_kwargs = false /\
    list_batches self kw w =
    (Raise (ScaleError ScaleInvalidRequest
              ("<Response [None]> Illegal parameter " ++ key
               ++ " for ScaleClient.tasks()") None), w).
Proof.
  intros Hin Hk.
  destruct (check_kwargs_illegal _ _ _ Hin Hk) as (key & H1 & H2 & Hrun).
  exists key. repeat split; auto.
  unfold list_batches, bind, lift. rewrite Hrun. reflexivity.
Qed.

(** ** Lemmas on the methods set after the class definition *)

Lemma creators_getattr (name : string) :
  getattr name ScaleClient_creators =
  match find (fun T => String.eqb name ("create_" ++ T ++ "_task"))
             TASK_TYPES with
  | Some T => Some (create_task_wrapper T)
  | None => None
  end.
Proof.
  unfold ScaleClient_creators, _AddTaskTypeCreator, TASK_TYPES. cbn.
  repeat match goal with
         | |- context [String.eqb name ?s] => destruct (String.eqb name s)
         end; reflexivity.
Qed.

(** ** Lemmas on calls *)

Lemma response_outcome_invalid (r : response) (e : pyexc) :
  response_outcome r = Raise e ->
  exc_class e = ScaleInvalidRequest ->
  status_code r = 400 /\ exc_code e = Some (Some 400).
Proof.
  unfold response_outcome, error_class, r_json, ScaleException_init.
  destruct (status_code r =? 200) eqn:H200.
  - destruct (json_body r); intros [= <-]; discriminate.
  - destruct (status_code r =? 400) eqn:H400.
    + apply Z.eqb_eq in H400. rewrite H400.
      destruct (json_body r) as [body|].
      * destruct (py_getitem body "error") eqn:Hg; intros [= <-]; cbn; auto.
        unfold py_getitem in Hg.
        destruct body; try (injection Hg as <-; discriminate).
        destruct (dict_get "error" fields); [discriminate | ].
        injection Hg as <-. discriminate.
      * intros [= <-]; cbn; auto.
    + destruct (json_body r) as [body|].
      * destruct (py_getitem body "error") eqn:Hg; intros [= <-];
          [discriminate | ].
        unfold py_getitem in Hg.
        destruct body; try (injection Hg as <-; discriminate).
        destruct (dict_get "error" fields); [discriminate | ].
        injection Hg as <-. discriminate.
      * intros [= <-]; discriminate.
Qed.

Lemma paginate_raises {E} (wrap : json -> E) (response : json)
    (w w' : world) (e : pyexc) :
  paginate wrap response w = (Raise e, w') ->
  exc_class e <> ScaleInvalidRequest.
Proof.
  unfold paginate, bind, lift, ret, py_getitem, py_get, py_iter.
  destruct response; try (intros [= <- _]; discriminate).
  repeat match goal with
         | |- context [match dict_get ?k fields with _ => _ end] =>
             destruct (dict_get k fields)
         | |- context [match ?j with JNull => _ | _ => _ end] =>
             destruct j
         end;
    intros [= <- _] || intros [=]; discriminate.
Qed.

Lemma fmap_run {A B} (f : A -> B) (m : M A) (w : world) :
  fmap f m w =
  match m w with
  | (Return a, w') => (Return (f a), w')
  | (Raise e, w') => (Raise e, w')
  end.
Proof. reflexivity. Qed.

Lemma append_length (a b : string) :
  String.length (a ++ b) = (String.length a + String.length b)%nat.
Proof. induction a as [|c a IH]; cbn; [reflexivity | now rewrite IH]. Qed.

Lemma append_inv_tail (a b s : string) : a ++ s = b ++ s -> a = b.
Proof.
  revert b. induction a as [|c a IH]; intros [|c' b] H; cbn in H.
  - reflexivity.
  - apply (f_equal String.length) in H. cbn in H.
    rewrite append_length in H. lia.
  - apply (f_equal String.length) in H. cbn in H.
    rewrite append_length in H. lia.
  - injection H as -> H. f_equal. exact (IH b H).
Qed.

Lemma creator_name_unknown (T : string) :
  ~ In T TASK_TYPES ->
  find (fun T' => String.eqb ("create_" ++ T ++ "_task")
                    ("create_" ++ T' ++ "_task")) TASK_TYPES = None.
Proof.
  intros Hnot.
  destruct (find _ TASK_TYPES) as [T'|] eqn:Hfind; [ | reflexivity].
  apply find_some in Hfind as [Hin Heq].
  apply String.eqb_eq in Heq. cbn [append] in Heq.
  injection Heq as Heq. apply append_inv_tail in Heq. subst T'.
  contradiction.
Qed.

Lemma creator_name_known (T : string) :
  str_in T TASK_TYPES = true ->
  find (fun T' => String.eqb ("create_" ++ T ++ "_task")
                    ("create_" ++ T' ++ "_task")) TASK_TYPES = Some T.
Proof.
  unfold str_in, TASK_TYPES. cbn [existsb]. intros H.
  repeat (apply orb_true_iff in H as [H | H];
          [apply String.eqb_eq in H; subst T; reflexivity | ]).
  discriminate.
Qed.

Lemma str_in_false (k : string) (l : list string) :
  str_in k l = false -> ~ In k l.
Proof.
  unfold str_in. intros H Hin.
  assert (Ht : existsb (String.eqb k) l = true)
    by (apply existsb_exists; exists k; split;
        [exact Hin | apply String.eqb_refl]).
  congruence.
Qed.

(** The attribute [create_<T>_task] is set exactly for the types of
    [TASK_TYPES], and calling it is calling [create_task] with [T]. *)
Lemma typed_creator_run (self : ScaleClient) (T : string) (kw : kwargs)
    (w : world) :
  call_creator self T kw w =
  if str_in T TASK_TYPES
  then call_create_task self T kw w
  else (Raise (PyError AttributeError None), w).
Proof.
  unfold call_creator. rewrite creators_getattr.
  destruct (str_in T TASK_TYPES) eqn:HT.
  - rewrite (creator_name_known T HT). reflexivity.
  - rewrite (creator_name_unknown T (str_in_false _ _ HT)). reflexivity.
Qed.

Lemma call_create_task_run (self : ScaleClient) (T : string) (kw : kwargs)
    (w : world) :
  call_create_task self T kw w =
  match bind_kwargs ["self"; "task_type"] kw with
  | Return _ => create_task self T kw w
  | Raise e => (Raise e, w)
  end.
Proof.
  unfold call_create_task, bind, lift.
  destruct (bind_kwargs _ kw); reflexivity.
Qed.

Lemma bind_kwargs_raises (names : list string) (kw : kwargs) (e : pyexc) :
  bind_kwargs names kw = Raise e -> e = PyError TypeError None.
Proof.
  unfold bind_kwargs. destruct (existsb _ _); [ | discriminate].
  intros [= <-]. reflexivity.
Qed.

(** No attribute that the loop sets hides a name of the class body. *)
Lemma creator_names_are_fresh (T : string) :
  ~ In ("create_" ++ T ++ "_task") class_body_names.
Proof.
  unfold class_body_names. cbn [In append]. intros H.
  repeat (destruct H as [H | H]; [try discriminate H | ]);
    try contradiction.
  - injection H as H. destruct T as [|c T]; [discriminate H | ].
    apply (f_equal String.length) in H. cbn in H.
    rewrite append_length in H. cbn in H. lia.
  - injection H as H. destruct T as [|c T]; [discriminate H | ].
    apply (f_equal String.length) in H. cbn in H.
    rewrite append_length in H. cbn in H. lia.
Qed.

(** A call that reaches the network and whose response is an error raises
    that error after exactly one request. *)
Lemma run_raise (self : ScaleClient) (c : call) (w : world) (req : request)
    (e : pyexc) :
  request_of self c = Some req ->
  response_outcome (net w (sent w) req) = Raise e ->
  run self c w = (Raise e, after w req).
Proof.
  destruct c; cbn [run request_of]; rewrite fmap_run.
  - intros [= <-] He. unfold fetch_task, bind.
    rewrite request_run_get. cbn [or_empty append] in He |- *.
    rewrite He. reflexivity.
  - intros [= <-] He. unfold cancel_task, bind.
    rewrite request_run_post. cbn [or_empty append] in He |- *.
    rewrite He. reflexivity.
  - destruct (all_allowed tasks_allowed_kwargs kw) eqn:Hall; [ | discriminate].
    intros [= <-] He. rewrite (tasks_run _ _ _ Hall). cbn zeta.
    rewrite He. reflexivity.
  - intros [= <-] He. unfold create_task, bind. cbn zeta.
    rewrite request_run_post, or_empty_Some. cbn [append] in He |- *.
    rewrite He. reflexivity.
  - intros [= <-] He. unfold create_batch, bind. cbn zeta.
    rewrite request_run_post, or_empty_Some. cbn [append] in He |- *.
    rewrite He. reflexivity.
  - intros [= <-] He. unfold get_batch, bind.
    rewrite request_run_get. cbn [or_empty append] in He |- *.
    rewrite He. reflexivity.
  - destruct (all_allowed list_batches_allowed_kwargs kw) eqn:Hall;
      [ | discriminate].
    intros [= <-] He. rewrite (list_batches_run _ _ _ Hall). cbn zeta.
    rewrite He. reflexivity.
  - rewrite typed_creator_run.
    destruct (str_in task_type TASK_TYPES); [ | discriminate].
    rewrite call_create_task_run.
    destruct (bind_kwargs _ kw); [ | discriminate].
    intros [= <-] He. unfold create_task, bind. cbn zeta.
    rewrite request_run_post, or_empty_Some. cbn [append] in He |- *.
    rewrite He. reflexivity.
Qed.

Lemma all_allowed_false_inv (allowed_kwargs : list string) (kw : kwargs) :
  all_allowed allowed_kwargs kw = false ->
  exists k, In k (dict_keys kw) /\ str_in k allowed_kwargs = false.
Proof.
  unfold all_allowed. induction (dict_keys kw) as [|key rest IH]; cbn;
    [discriminate | ].
  destruct (str_in key allowed_kwargs) eqn:Hkey; cbn.
  - intros H. destruct (IH H) as (k & Hin & Hk). eauto.
  - intros _. eauto.
Qed.

(** After a response that [response_outcome] accepts, a call raises no
    [ScaleInvalidRequest]: what the listing tail raises is the
    interpreter's. *)
Lemma run_return (self : ScaleClient) (c : call) (w w' : world)
    (req : request) (d : json) (e : pyexc) :
  request_of self c = Some req ->
  response_outcome (net w (sent w) req) = Return d ->
  run self c w = (Raise e, w') ->
  exc_class e <> ScaleInvalidRequest.
Proof.
  destruct c; cbn [run request_of]; rewrite fmap_run.
  - intros [= <-] Hd. unfold fetch_task, bind.
    rewrite request_run_get. cbn [or_empty append] in Hd |- *.
    rewrite Hd. discriminate.
  - intros [= <-] Hd. unfold cancel_task, bind.
    rewrite request_run_post. cbn [or_empty append] in Hd |- *.
    rewrite Hd. discriminate.
  - destruct (all_allowed tasks_allowed_kwargs kw) eqn:Hall; [ | discriminate].
    intros [= <-] Hd. rewrite (tasks_run _ _ _ Hall). cbn zeta.
    rewrite Hd.
    destruct (paginate _ d _) as [[l|e'] w''] eqn:Hp; [discriminate | ].
    intros [= <- _]. exact (paginate_raises _ _ _ _ _ Hp).
  - intros [= <-] Hd. unfold create_task, bind. cbn zeta.
    rewrite request_run_post, or_empty_Some. cbn [append] in Hd |- *.
    rewrite Hd. discriminate.
  - intros [= <-] Hd. unfold create_batch, bind. cbn zeta.
    rewrite request_run_post, or_empty_Some. cbn [append] in Hd |- *.
    rewrite Hd. discriminate.
  - intros [= <-] Hd. unfold get_batch, bind.
    rewrite request_run_get. cbn [or_empty append] in Hd |- *.
    rewrite Hd. discriminate.
  - destruct (all_allowed list_batches_allowed_kwargs kw) eqn:Hall;
      [ | discriminate].
    intros [= <-] Hd. rewrite (list_batches_run _ _ _ Hall). cbn zeta.
    rewrite Hd.
    destruct (paginate _ d _) as [[l|e'] w''] eqn:Hp; [discriminate | ].
    intros [= <- _]. exact (paginate_raises _ _ _ _ _ Hp).
  - rewrite typed_creator_run.
    destruct (str_in task_type TASK_TYPES); [ | discriminate].
    rewrite call_create_task_run.
    destruct (bind_kwargs _ kw); [ | discriminate].
    intros [= <-] Hd. unfold create_task, bind. cbn zeta.
    rewrite request_run_post, or_empty_Some. cbn [append] in Hd |- *.
    rewrite Hd. discriminate.
Qed.

(** A call that is to send nothing sends nothing, and the only
    [ScaleInvalidRequest] it raises has no code. *)
Lemma run_local (self : ScaleClient) (c : call) (w : world) :
  request_of self c = None ->
  exists e,
    run self c w = (Raise e, w) /\
    (exc_class e = ScaleInvalidRequest -> exc_code e = Some None).
Proof.
  destruct c; cbn [run request_of]; try discriminate; rewrite fmap_run.
  - destruct (all_allowed tasks_allowed_kwargs kw) eqn:Hall; [discriminate | ].
    intros _. destruct (all_allowed_false_inv _ _ Hall) as (k & Hin & Hk).
    destruct (tasks_illegal self kw w k Hin Hk) as (key & _ & _ & Hrun).
    rewrite Hrun. eexists; split; [reflexivity | reflexivity].
  - destruct (all_allowed list_batches_allowed_kwargs kw) eqn:Hall;
      [discriminate | ].
    intros _. destruct (all_allowed_false_inv _ _ Hall) as (k & Hin & Hk).
    destruct (list_batches_illegal self kw w k Hin Hk) as (key & _ & _ & Hrun).
    rewrite Hrun. eexists; split; [reflexivity | reflexivity].
  - rewrite typed_creator_run.
    destruct (str_in task_type TASK_TYPES).
    + rewrite call_create_task_run.
      destruct (bind_kwargs _ kw) as [u|e] eqn:Hb; [discriminate | ].
      intros _. rewrite (bind_kwargs_raises _ _ _ Hb).
      eexists; split; [reflexivity | discriminate].
    + intros _. eexists; split; [reflexivity | discriminate].
Qed.

Lemma response_outcome_200 (r : response) (d : json) :
  status_code r = 200 -> json_body r = Some d ->
  response_outcome r = Return d.
Proof.
  intros H200 Hd. unfold response_outcome, r_json.
  rewrite H200, Hd. reflexivity.
Qed.

Lemma response_outcome_error_of (r : response) (v : json) :
  status_code r <> 200 ->
  error_of r = Some v ->
  response_outcome r =
  Raise (ScaleError (error_class r)
           ("<Response [" ++ str_of_int (status_code r) ++ "]> "
            ++ format_value v)
           (Some (status_code r))).
Proof.
  intros H200 Hv. apply Z.eqb_neq in H200.
  unfold response_outcome, error_of in *. rewrite H200.
  destruct (json_body r) as [body|].
  - destruct body; try discriminate. cbn. rewrite Hv. reflexivity.
  - injection Hv as <-. reflexivity.
Qed.

(** ** The claims *)

(** C1. A listing call given an option key outside its allowed set
    ([tasks]: the fourteen keys below; [list_batches]: the seven keys
    below) raises a [ScaleInvalidRequest], and the network is as it was
    before the call: no request has been sent, for the check runs before
    [_getrequest]. *)
Theorem unknown_option_rejected_before_network
    (self : ScaleClient) (kw : kwargs) (w : world) (k : string) :
  In k (dict_keys kw) ->
  (str_in k ["start_time"; "end_time"; "status"; "type"; "project"; "batch";
             "limit"; "offset"; "completed_before"; "completed_after";
             "next_token"; "customer_review_status"; "updated_before";
             "updated_after"] = false ->
   exists e, tasks self kw w = (Raise e, w) /\
             exc_class e = ScaleInvalidRequest) /\
  (str_in k ["start_time"; "end_time"; "status"; "project"; "batch";
             "limit"; "offset"] = false ->
   exists e, list_batches self kw w = (Raise e, w) /\
             exc_class e = ScaleInvalidRequest).
Proof.
  intros Hin. split; intros Hk.
  - destruct (tasks_illegal self kw w k Hin Hk) as (key & _ & _ & Hrun).
    rewrite Hrun. eexists; split; reflexivity.
  - destruct (list_batches_illegal self kw w k Hin Hk) as (key & _ & _ & Hrun).
    rewrite Hrun. eexists; split; reflexivity.
Qed.

(** C8. The [ScaleInvalidRequest] that [tasks] or [list_batches] raises
    for an illegal option key has [None] as its [code]; and whenever any
    call raises a [ScaleInvalidRequest], either nothing was sent and the
    code is [None], or one request was sent, the response had status 400
    and the code is 400. *)
Theorem local_invalid_request_has_no_code
    (self : ScaleClient) (kw : kwargs) (w : world) (k : string) :
  In k (dict_keys kw) ->
  (str_in k tasks_allowed_kwargs = false ->
   exists e, tasks self kw w = (Raise e, w) /\
             exc_class e = ScaleInvalidRequest /\ exc_code e = Some None) /\
  (str_in k list_batches_allowed_kwargs = false ->
   exists e, list_batches self kw w = (Raise e, w) /\
             exc_class e = ScaleInvalidRequest /\ exc_code e = Some None) /\
  (forall (c : call) (e : pyexc) (w' : world),
     run self c w = (Raise e, w') ->
     exc_class e = ScaleInvalidRequest ->
     (w' = w /\ exc_code e = Some None) \/
     (exists req, request_of self c = Some req /\ w' = after w req /\
                  status_code (net w (sent w) req) = 400 /\
                  exc_code e = Some (Some 400))).
Proof.
  intros Hin. split; [ | split].
  - intros Hk.
    destruct (tasks_illegal self kw w k Hin Hk) as (key & _ & _ & Hrun).
    rewrite Hrun. eexists; repeat split; reflexivity.
  - intros Hk.
    destruct (list_batches_illegal self kw w k Hin Hk) as (key & _ & _ & Hrun).
    rewrite Hrun. eexists; repeat split; reflexivity.
  - intros c e w' Hrun Hcls.
    destruct (request_of self c) as [req|] eqn:Hreq.
    + right. exists req.
      destruct (response_outcome (net w (sent w) req)) as [d|e0] eqn:Hout.
      * exfalso. exact (run_return _ _ _ _ _ _ _ Hreq Hout Hrun Hcls).
      * rewrite (run_raise _ _ _ _ _ Hreq Hout) in Hrun.
        injection Hrun as <- <-.
        destruct (response_outcome_invalid _ _ Hout Hcls) as [H400 Hcode].
        auto.
    + left. destruct (run_local self c w Hreq) as (e0 & Hrun0 & Hcode).
      rewrite Hrun0 in Hrun. injection Hrun as <- <-. auto.
Qed.

(** An [except] clause for [ScaleException] or for [ValueError] handles
    a [ScaleInvalidRequest], whatever raised it. *)
Lemma except_catches_invalid_request
    {A : Type} (m : M A) (h : pyexc -> M A) (w w' : world) (e : pyexc) :
  m w = (Raise e, w') ->
  exc_class e = ScaleInvalidRequest ->
  try_except m ScaleException h w = h e w' /\
  try_except m ValueError h w = h e w'.
Proof.
  intros Hm Hcls. unfold try_except. rewrite Hm, Hcls.
  split; reflexivity.
Qed.

(** C9, as the code has it. [ScaleInvalidRequest] is a subclass of
    [ScaleException] and of [ValueError], and an [except] clause for
    either class handles every [ScaleInvalidRequest] that a call raises:
    the handler runs for every failure of the local check of [tasks] and
    [list_batches], and for every 400 response whose body is a JSON object
    with a field [error] or is not JSON. *)
Theorem invalid_request_handlers_observe
    (self : ScaleClient) (w : world) (h : pyexc -> M result) :
  issubclass ScaleInvalidRequest ScaleException = true /\
  issubclass ScaleInvalidRequest ValueError = true /\
  (forall (c : call) (e : pyexc) (w' : world),
     run self c w = (Raise e, w') ->
     exc_class e = ScaleInvalidRequest ->
     try_except (run self c) ScaleException h w = h e w' /\
     try_except (run self c) ValueError h w = h e w') /\
  (forall (kw : kwargs) (k : string),
     In k (dict_keys kw) ->
     (str_in k tasks_allowed_kwargs = false ->
      exists e,
        exc_class e = ScaleInvalidRequest /\
        try_except (run self (tasks_call kw)) ScaleException h w = h e w /\
        try_except (run self (tasks_call kw)) ValueError h w = h e w) /\
     (str_in k list_batches_allowed_kwargs = false ->
      exists e,
        exc_class e = ScaleInvalidRequest /\
        try_except (run self (list_batches_call kw)) ScaleException h w =
        h e w /\
        try_except (run self (list_batches_call kw)) ValueError h w =
        h e w)) /\
  (forall (c : call) (req : request) (v : json),
     request_of self c = Some req ->
     status_code (net w (sent w) req) = 400 ->
     error_of (net w (sent w) req) = Some v ->
     exists e,
       exc_class e = ScaleInvalidRequest /\
       run self c w = (Raise e, after w req) /\
       try_except (run self c) ScaleException h w = h e (after w req) /\
       try_except (run self c) ValueError h w = h e (after w req)).
Proof.
  split; [reflexivity | ]. split; [reflexivity | ]. split; [ | split].
  - intros c e w' Hrun Hcls.
    exact (except_catches_invalid_request _ h w w' e Hrun Hcls).
  - intros kw k Hin. split; intros Hk.
    + destruct (tasks_illegal self kw w k Hin Hk) as (key & _ & _ & Hrun).
      assert (Hrun' : run self (tasks_call kw) w =
                      (Raise (ScaleError ScaleInvalidRequest
                                ("<Response [None]> Illegal parameter "
                                 ++ key ++ " for ScaleClient.tasks()")
                                None), w))
        by (cbn [run]; rewrite fmap_run, Hrun; reflexivity).
      eexists. split;
        [ | exact (except_catches_invalid_request _ h w w _ Hrun' eq_refl)].
      reflexivity.
    + destruct (list_batches_illegal self kw w k Hin Hk)
        as (key & _ & _ & Hrun).
      assert (Hrun' : run self (list_batches_call kw) w =
                      (Raise (ScaleError ScaleInvalidRequest
                                ("<Response [None]> Illegal parameter "
                                 ++ key ++ " for ScaleClient.tasks()")
                                None), w))
        by (cbn [run]; rewrite fmap_run, Hrun; reflexivity).
      eexists. split;
        [ | exact (except_catches_invalid_request _ h w w _ Hrun' eq_refl)].
      reflexivity.
  - intros c req v Hreq H400 Hv.
    assert (Hout : response_outcome (net w (sent w) req) =
                   Raise (ScaleError ScaleInvalidRequest
                            ("<Response [400]> " ++ format_value v)
                            (Some 400))).
    { rewrite (response_outcome_error_of _ v) by (rewrite ?H400; easy).
      unfold error_class. rewrite H400. reflexivity. }
    pose proof (run_raise _ _ _ _ _ Hreq Hout) as Hrun.
    eexists. split; [ | split; [exact Hrun | ]].
    + reflexivity.
    + exact (except_catches_invalid_request _ h w _ _ Hrun eq_refl).
Qed.

(** C2, as the code has it. For every call that reaches the network, a
    400 response whose body is a JSON object with a field [error], or is
    not JSON, makes the call raise a [ScaleInvalidRequest] after that one
    request, with code 400 and, as its message, ["<Response [400]> "]
    followed by the field (or by the raw text of a body that is not JSON).
    In particular, for the body [{status_code: 400, error: "bad field"}],
    [fetch_task] raises a [ScaleInvalidRequest] whose message contains
    ["bad field"]. *)
Theorem bad_request_raises_invalid_request (self : ScaleClient) (w : world) :
  (forall (c : call) (req : request) (v : json),
     request_of self c = Some req ->
     status_code (net w (sent w) req) = 400 ->
     error_of (net w (sent w) req) = Some v ->
     run self c w =
     (Raise (ScaleError ScaleInvalidRequest
               ("<Response [400]> " ++ format_value v) (Some 400)),
      after w req)) /\
  (forall (task_id body_text : string),
     let req := get_request self ("task/" ++ task_id) [] in
     net w (sent w) req =
     mkResponse 400 body_text
       (Some (JObj [("status_code", JInt 400);
                    ("error", JStr "bad field")])) ->
     exists msg,
       fetch_task self task_id w =
       (Raise (ScaleError ScaleInvalidRequest msg (Some 400)), after w req) /\
       contains "bad field" msg = true).
Proof.
  split.
  - intros c req v Hreq H400 Hv.
    apply (run_raise _ _ _ _ _ Hreq).
    rewrite (response_outcome_error_of _ v) by (rewrite ?H400; easy).
    unfold error_class. rewrite H400. reflexivity.
  - intros task_id body_text req Hr.
    exists "<Response [400]> bad field". split; [ | reflexivity].
    unfold fetch_task, bind. rewrite request_run_get.
    cbn [or_empty]. fold req. rewrite Hr. reflexivity.
Qed.

(** C3, as the code has it. For every call that reaches the network, a
    response whose status is neither 200 nor 400 and whose body is a JSON
    object with a field [error], or is not JSON, makes the call raise a
    [ScaleException] (a class that is not a subclass of
    [ScaleInvalidRequest]) after that one request, with the status as its
    code and, as its message, ["<Response [status]> "] followed by the
    extracted message. In particular, for a 500 response whose body is
    the text [server exploded], not JSON, the message is
    ["<Response [500]> server exploded"]. *)
Theorem other_status_raises_scale_exception (self : ScaleClient) (w : world) :
  (forall (c : call) (req : request) (v : json),
     request_of self c = Some req ->
     status_code (net w (sent w) req) <> 200 ->
     status_code (net w (sent w) req) <> 400 ->
     error_of (net w (sent w) req) = Some v ->
     run self c w =
     (Raise (ScaleError ScaleException
               ("<Response ["
                ++ str_of_int (status_code (net w (sent w) req)) ++ "]> "
                ++ format_value v)
               (Some (status_code (net w (sent w) req)))),
      after w req)) /\
  issubclass ScaleException ScaleInvalidRequest = false /\
  (forall (c : call) (req : request),
     request_of self c = Some req ->
     net w (sent w) req = mkResponse 500 "server exploded" None ->
     run self c w =
     (Raise (ScaleError ScaleException "<Response [500]> server exploded"
               (Some 500)),
      after w req)).
Proof.
  split; [ | split; [reflexivity | ]].
  - intros c req v Hreq H200 H400 Hv.
    apply (run_raise _ _ _ _ _ Hreq).
    rewrite (response_outcome_error_of _ v H200 Hv).
    unfold error_class. apply Z.eqb_neq in H400. rewrite H400. reflexivity.
  - intros c req Hreq Hr.
    apply (run_raise _ _ _ _ _ Hreq). rewrite Hr. reflexivity.
Qed.

Lemma bind_kwargs_ok (names : list string) (kw : kwargs) :
  (forall key, In key (dict_keys kw) -> ~ In key names) ->
  bind_kwargs names kw = Return tt.
Proof.
  intros Hfree. unfold bind_kwargs.
  destruct (existsb _ (dict_keys kw)) eqn:Hex; [ | reflexivity].
  apply existsb_exists in Hex as (key & Hin & Hkey).
  unfold str_in in Hkey. apply existsb_exists in Hkey as (n & Hn & Heq).
  apply String.eqb_eq in Heq. subst n. destruct (Hfree key Hin Hn).
Qed.

Lemma bind_kwargs_clash (names : list string) (kw : kwargs) (key : string) :
  In key (dict_keys kw) -> In key names ->
  bind_kwargs names kw = Raise (PyError TypeError None).
Proof.
  intros Hin Hn. unfold bind_kwargs.
  assert (Hex : existsb (fun k => str_in k names) (dict_keys kw) = true).
  { apply existsb_exists. exists key. split; [exact Hin | ].
    unfold str_in. apply existsb_exists. exists key.
    split; [exact Hn | apply String.eqb_refl]. }
  rewrite Hex. reflexivity.
Qed.

(** C4. The class has sixteen task types, and for each type [T] of them
    the attribute [create_<T>_task] that the loop sets is a method that,
    for every client, every keyword arguments and every state of the
    network, does what the call [create_task(T, **kwargs)] does. With
    keyword arguments that name neither [self] nor [task_type] it is
    [create_task] with [T] as its type: the same request, the same result,
    the same exception. With keyword arguments that name one of them the
    call of [create_task] cannot bind them, in the method as in a direct
    call: [TypeError], and nothing is sent. *)
Theorem typed_creator_is_create_task (T : string) :
  In T TASK_TYPES ->
  List.length TASK_TYPES = 16%nat /\
  exists m : method,
    getattr ("create_" ++ T ++ "_task") ScaleClient_creators = Some m /\
    forall (self : ScaleClient) (kw : kwargs) (w : world),
      m self kw w = call_create_task self T kw w /\
      call_creator self T kw w = call_create_task self T kw w /\
      ((forall key, In key (dict_keys kw) ->
                    ~ In key ["self"; "task_type"]) ->
       m self kw w = create_task self T kw w /\
       call_creator self T kw w = create_task self T kw w) /\
      (forall key, In key (dict_keys kw) -> In key ["self"; "task_type"] ->
       m self kw w = (Raise (PyError TypeError None), w) /\
       call_create_task self T kw w = (Raise (PyError TypeError None), w)).
Proof.
  intros Hin. split; [reflexivity | ].
  assert (HT : str_in T TASK_TYPES = true).
  { unfold str_in. apply existsb_exists. exists T.
    split; [exact Hin | apply String.eqb_refl]. }
  exists (create_task_wrapper T). split.
  - rewrite creators_getattr, (creator_name_known T HT). reflexivity.
  - intros self kw w.
    assert (Hcall : call_creator self T kw w =
                    call_create_task self T kw w)
      by (rewrite typed_creator_run, HT; reflexivity).
    split; [reflexivity | ]. split; [exact Hcall | ]. split.
    + intros Hfree. rewrite Hcall. unfold create_task_wrapper.
      rewrite call_create_task_run, (bind_kwargs_ok _ _ Hfree).
      split; reflexivity.
    + intros key Hkey Hname. unfold create_task_wrapper.
      rewrite call_create_task_run, (bind_kwargs_clash _ _ key Hkey Hname).
      split; reflexivity.
Qed.

(** C5, as the code has it. For a 200 response whose body has the five
    fields of a listing, the list that [tasks] or [list_batches] returns
    has one wrapper per item of the server's [docs], in that order, and its
    [limit] and [has_more] are the values of the server's fields: the
    length is at most the limit exactly when the server's response is so,
    and the client checks neither. *)
Theorem paginator_mirrors_response
    (self : ScaleClient) (kw : kwargs) (w : world) (body_text : string)
    (fields : list (string * json)) (items : json) (seq : list json)
    (tot lim off hm : json) :
  net w (sent w) (get_request self "tasks" kw) =
  mkResponse 200 body_text (Some (JObj fields)) ->
  dict_get "docs" fields = Some items ->
  py_iter items = Return seq ->
  dict_get "total" fields = Some tot ->
  dict_get "limit" fields = Some lim ->
  dict_get "offset" fields = Some off ->
  dict_get "has_more" fields = Some hm ->
  (all_allowed tasks_allowed_kwargs kw = true ->
   exists l : Tasklist,
     tasks self kw w = (Return l, after w (get_request self "tasks" kw)) /\
     elems l = map (fun d => new_Task d self) seq /\
     List.length (elems l) = List.length seq /\
     limit l = lim /\ has_more l = hm /\
     (forall n, limit l = JInt n ->
        (Z.of_nat (List.length (elems l)) <= n <-> Z.of_nat (List.length seq) <= n))) /\
  (all_allowed list_batches_allowed_kwargs kw = true ->
   exists l : Batchlist,
     list_batches self kw w =
     (Return l, after w (get_request self "tasks" kw)) /\
     elems l = map (fun d => new_Batch d self) seq /\
     List.length (elems l) = List.length seq /\
     limit l = lim /\ has_more l = hm /\
     (forall n, limit l = JInt n ->
        (Z.of_nat (List.length (elems l)) <= n <-> Z.of_nat (List.length seq) <= n))).
Proof.
  intros Hr Hd Hi Ht Hl Ho Hh. split; intros Hall.
  - rewrite (tasks_run _ _ _ Hall). cbn zeta. rewrite Hr.
      rewrite (response_outcome_200 _ (JObj fields)) by reflexivity.
    rewrite (paginate_ok _ _ _ _ _ _ _ _ _ Hd Hi Ht Hl Ho Hh).
    eexists; split; [reflexivity | ]. cbn.
    rewrite length_map. repeat split; auto.
  - rewrite (list_batches_run _ _ _ Hall). cbn zeta. rewrite Hr.
      rewrite (response_outcome_200 _ (JObj fields)) by reflexivity.
    rewrite (paginate_ok _ _ _ _ _ _ _ _ _ Hd Hi Ht Hl Ho Hh).
    eexists; split; [reflexivity | ]. cbn.
    rewrite length_map. repeat split; auto.
Qed.

(** C6. When the server answers the listing request with status 200 and
    the body [{docs: [d1, d2], total: 2, limit: 100, offset: 0,
    has_more: false}], [tasks] returns, after that one request, a list of
    exactly two [Task] wrappers, of [d1] then of [d2], whose [total] is 2,
    whose [has_more] is [False] and whose [next_token] is [None]. *)
Theorem tasks_two_docs
    (self : ScaleClient) (kw : kwargs) (w : world) (body_text : string)
    (d1 d2 : json) :
  all_allowed tasks_allowed_kwargs kw = true ->
  net w (sent w) (get_request self "tasks" kw) =
  mkResponse 200 body_text
    (Some (JObj [("docs", JArr [d1; d2]); ("total", JInt 2);
                 ("limit", JInt 100); ("offset", JInt 0);
                 ("has_more", JBool false)])) ->
  exists l : Tasklist,
    tasks self kw w = (Return l, after w (get_request self "tasks" kw)) /\
    elems l = [new_Task d1 self; new_Task d2 self] /\
    List.length (elems l) = 2%nat /\
    docs l = elems l /\
    total l = JInt 2 /\ limit l = JInt 100 /\ offset l = JInt 0 /\
    has_more l = JBool false /\ next_token l = JNull.
Proof.
  intros Hall Hr.
  rewrite (tasks_run _ _ _ Hall). cbn zeta. rewrite Hr. cbn.
  eexists; split; [reflexivity | ]. cbn. repeat split; reflexivity.
Qed.

(** C7. [create_batch] sends exactly one request, a POST to the
    [batches] endpoint whose JSON body is
    [{project: project, name: batch_name, callback: callback}], and when
    the response has status 200 and a body that decodes to [doc], it
    returns the [Batch] that wraps [doc]. *)
Theorem create_batch_posts_once
    (self : ScaleClient) (project batch_name callback : json) (w : world) :
  let req :=
    mkRequest POST "https://api.scale.com/v1/batches"
      [("Content-Type", "application/json")] (api_key self, "") None
      (Some [("project", project); ("name", batch_name);
             ("callback", callback)]) in
  sent (snd (create_batch self project batch_name callback w)) =
  (sent w ++ [req])%list /\
  forall doc : json,
    status_code (net w (sent w) req) = 200 ->
    json_body (net w (sent w) req) = Some doc ->
    create_batch self project batch_name callback w =
    (Return (new_Batch doc self), after w req).
Proof.
  intros req. unfold create_batch, bind. cbn zeta.
  rewrite request_run_post, or_empty_Some.
  change (post_request self "batches"
            [("project", project); ("name", batch_name);
             ("callback", callback)]) with req.
  split.
  - destruct (response_outcome _); reflexivity.
  - intros doc H200 Hdoc.
    rewrite (response_outcome_200 _ doc H200 Hdoc). reflexivity.
Qed.

(** C10, as the code has it. For a 200 response whose body is a JSON
    object whose [docs], when present, can be iterated: when one of [docs], [total], [limit],
    [offset], [has_more] is missing, [tasks] and [list_batches] raise the
    [KeyError] of a missing one of them, which is neither a
    [ScaleInvalidRequest] nor a [ScaleException]; when none is missing and
    [next_token] is, they return a list whose [next_token] is [None]. *)
Theorem listing_missing_field_is_key_error
    (self : ScaleClient) (kw : kwargs) (w : world) (body_text : string)
    (fields : list (string * json)) :
  let req := get_request self "tasks" kw in
  net w (sent w) req = mkResponse 200 body_text (Some (JObj fields)) ->
  (forall items, dict_get "docs" fields = Some items ->
                 exists seq, py_iter items = Return seq) ->
  (forall k,
     In k ["docs"; "total"; "limit"; "offset"; "has_more"] ->
     dict_get k fields = None ->
     exists k',
       In k' ["docs"; "total"; "limit"; "offset"; "has_more"] /\
       dict_get k' fields = None /\
       issubclass KeyError ScaleException = false /\
       issubclass KeyError ScaleInvalidRequest = false /\
       (all_allowed tasks_allowed_kwargs kw = true ->
        tasks self kw w = (Raise (PyError KeyError (Some k')), after w req)) /\
       (all_allowed list_batches_allowed_kwargs kw = true ->
        list_batches self kw w =
        (Raise (PyError KeyError (Some k')), after w req))) /\
  ((forall k, In k ["docs"; "total"; "limit"; "offset"; "has_more"] ->
              dict_get k fields <> None) ->
   dict_get "next_token" fields = None ->
   (all_allowed tasks_allowed_kwargs kw = true ->
    exists l : Tasklist,
      tasks self kw w = (Return l, after w req) /\ next_token l = JNull) /\
   (all_allowed list_batches_allowed_kwargs kw = true ->
    exists l : Batchlist,
      list_batches self kw w = (Return l, after w req) /\
      next_token l = JNull)).
Proof.
  intros req Hr Hiter. split.
  - intros k Hin Hk.
    destruct (first_missing_some fields k Hin Hk) as [k' Hk'].
    exists k'.
    pose proof (find_some _ _ Hk') as [Hin' Hnone].
    split; [exact Hin' | ].
    split; [destruct (dict_get k' fields); [discriminate | reflexivity] | ].
    split; [reflexivity | ]. split; [reflexivity | ].
    split; intros Hall.
    + rewrite (tasks_run _ _ _ Hall). cbn zeta. fold req. rewrite Hr.
      rewrite (response_outcome_200 _ (JObj fields)) by reflexivity.
      apply paginate_missing; assumption.
    + rewrite (list_batches_run _ _ _ Hall). cbn zeta. fold req.
      rewrite Hr.
      rewrite (response_outcome_200 _ (JObj fields)) by reflexivity. apply paginate_missing; assumption.
  - intros Hall5 Hnt.
    assert (Hget : forall k,
               In k ["docs"; "total"; "limit"; "offset"; "has_more"] ->
               exists v, dict_get k fields = Some v).
    { intros k Hin. specialize (Hall5 k Hin).
      destruct (dict_get k fields) as [v|]; [eauto | contradiction]. }
    destruct (Hget "docs") as [items Hd]; [cbn; auto | ].
    destruct (Hget "total") as [tot Ht]; [cbn; auto | ].
    destruct (Hget "limit") as [lim Hl]; [cbn; auto | ].
    destruct (Hget "offset") as [off Ho]; [cbn; auto 6 | ].
    destruct (Hget "has_more") as [hm Hh]; [cbn; auto 6 | ].
    destruct (Hiter items Hd) as [seq Hi].
    split; intros Hall.
    + rewrite (tasks_run _ _ _ Hall). cbn zeta. fold req. rewrite Hr.
      rewrite (response_outcome_200 _ (JObj fields)) by reflexivity.
      rewrite (paginate_ok _ _ _ _ _ _ _ _ _ Hd Hi Ht Hl Ho Hh).
      rewrite Hnt. eexists; split; reflexivity.
    + rewrite (list_batches_run _ _ _ Hall). cbn zeta. fold req.
      rewrite Hr.
      rewrite (response_outcome_200 _ (JObj fields)) by reflexivity.
      rewrite (paginate_ok _ _ _ _ _ _ _ _ _ Hd Hi Ht Hl Ho Hh).
      rewrite Hnt. eexists; split; reflexivity.
Qed.

(** ** Further lemmas on calls *)

(** A call that reaches the network and gets a body that
    [response_outcome] accepts goes on with [finish]. *)
Lemma run_ok (self : ScaleClient) (c : call) (w : world) (req : request)
    (d : json) :
  request_of self c = Some req ->
  response_outcome (net w (sent w) req) = Return d ->
  run self c w = finish self c d (after w req).
Proof.
  destruct c; cbn [run request_of finish].
  - intros [= <-] Hd. unfold fmap, fetch_task, bind, ret.
    rewrite request_run_get. cbn [or_empty append] in Hd |- *.
    rewrite Hd. reflexivity.
  - intros [= <-] Hd. unfold fmap, cancel_task, bind, ret.
    rewrite request_run_post. cbn [or_empty append] in Hd |- *.
    rewrite Hd. reflexivity.
  - destruct (all_allowed tasks_allowed_kwargs kw) eqn:Hall; [ | discriminate].
    intros [= <-] Hd. rewrite !fmap_run, (tasks_run _ _ _ Hall). cbn zeta.
    rewrite Hd. reflexivity.
  - intros [= <-] Hd. unfold fmap, create_task, bind, ret. cbn zeta.
    rewrite request_run_post, or_empty_Some. cbn [append] in Hd |- *.
    rewrite Hd. reflexivity.
  - intros [= <-] Hd. unfold fmap, create_batch, bind, ret. cbn zeta.
    rewrite request_run_post, or_empty_Some. cbn [append] in Hd |- *.
    rewrite Hd. reflexivity.
  - intros [= <-] Hd. unfold fmap, get_batch, bind, ret.
    rewrite request_run_get. cbn [or_empty append] in Hd |- *.
    rewrite Hd. reflexivity.
  - destruct (all_allowed list_batches_allowed_kwargs kw) eqn:Hall;
      [ | discriminate].
    intros [= <-] Hd. rewrite !fmap_run, (list_batches_run _ _ _ Hall).
    cbn zeta. rewrite Hd. reflexivity.
  - rewrite fmap_run, typed_creator_run.
    destruct (str_in task_type TASK_TYPES); [ | discriminate].
    rewrite call_create_task_run.
    destruct (bind_kwargs _ kw); [ | discriminate].
    intros [= <-] Hd. unfold create_task, bind, ret. cbn zeta.
    rewrite request_run_post, or_empty_Some. cbn [append] in Hd |- *.
    rewrite Hd. reflexivity.
Qed.

Lemma finish_world (self : ScaleClient) (c : call) (d : json) (w : world) :
  snd (finish self c d w) = w.
Proof.
  destruct c; cbn [finish]; try reflexivity; rewrite fmap_run.
  - pose proof (paginate_world (fun json => new_Task json self) d w) as H.
    destruct (paginate _ d w) as [[l|e] w']; exact H.
  - pose proof (paginate_world (fun doc => new_Batch doc self) d w) as H.
    destruct (paginate _ d w) as [[l|e] w']; exact H.
Qed.

Lemma response_outcome_return (r : response) (d : json) :
  response_outcome r = Return d ->
  status_code r = 200 /\ json_body r = Some d.
Proof.
  unfold response_outcome, r_json.
  destruct (status_code r =? 200) eqn:H200.
  - apply Z.eqb_eq in H200.
    destruct (json_body r); [intros [= ->]; auto | discriminate].
  - destruct (json_body r) as [body|]; [ | discriminate].
    destruct (py_getitem body "error"); discriminate.
Qed.

(** What the listing tail raises is the interpreter's: a [KeyError], a
    [TypeError] or an [AttributeError]. *)
Lemma paginate_raises_py {E} (wrap : json -> E) (response : json)
    (w w' : world) (e : pyexc) :
  paginate wrap response w = (Raise e, w') ->
  exists cls arg,
    e = PyError cls arg /\
    (cls = KeyError \/ cls = TypeError \/ cls = AttributeError).
Proof.
  unfold paginate, bind, lift, ret, py_getitem, py_get, py_iter.
  destruct response; try (intros [= <- _]; eauto 6).
  repeat match goal with
         | |- context [match dict_get ?k fields with _ => _ end] =>
             destruct (dict_get k fields)
         | |- context [match ?j with JNull => _ | _ => _ end] =>
             destruct j
         end;
    intros [= <- _] || intros [=]; eauto 6.
Qed.

Lemma paginate_returns {E} (wrap : json -> E) (response : json)
    (w w' : world) (l : Paginator E) :
  paginate wrap response w = (Return l, w') ->
  exists seq, elems l = map wrap seq /\ docs l = map wrap seq.
Proof.
  unfold paginate, bind, lift, ret.
  repeat match goal with
         | |- context [match ?o with Return _ => _ | Raise _ => _ end] =>
             destruct o; cbn; try discriminate
         end.
  intros [= <- _]. eexists; split; reflexivity.
Qed.

(** The network after a call: one more request, or none. *)
Lemma run_world (self : ScaleClient) (c : call) (w : world) :
  snd (run self c w) =
  match request_of self c with
  | Some req => after w req
  | None => w
  end.
Proof.
  destruct (request_of self c) as [req|] eqn:Hreq.
  - destruct (response_outcome (net w (sent w) req)) as [d|e] eqn:Hout.
    + rewrite (run_ok _ _ _ _ _ Hreq Hout). apply finish_world.
    + rewrite (run_raise _ _ _ _ _ Hreq Hout). reflexivity.
  - destruct (run_local self c w Hreq) as (e & Hrun & _).
    rewrite Hrun. reflexivity.
Qed.

(** ** Further properties of the client *)

(** X1. Every call is at most one round trip: the server is left as it
    was, and the log of requests grows by the one request of the call, or
    by nothing for a call that fails before the network is reached (an
    illegal option key, a [create_<T>_task] that was never set, or one
    whose keyword arguments name [self] or [task_type], which
    [create_task] cannot bind); whatever the response, nothing is sent a
    second time. *)
Theorem one_round_trip_per_call (self : ScaleClient) (c : call) (w : world) :
  net (snd (run self c w)) = net w /\
  sent (snd (run self c w)) =
  (sent w ++ match request_of self c with
             | Some req => [req]
             | None => []
             end)%list /\
  (forall T kw key,
     In key (dict_keys kw) -> In key ["self"; "task_type"] ->
     run self (creator_call T kw) w =
     (Raise (PyError (if str_in T TASK_TYPES then TypeError
                      else AttributeError) None), w)).
Proof.
  rewrite run_world. split; [ | split].
  - destruct (request_of self c); reflexivity.
  - destruct (request_of self c) as [req|]; [reflexivity | ].
    rewrite app_nil_r. reflexivity.
  - intros T kw key Hkey Hname. cbn [run].
    rewrite fmap_run, typed_creator_run.
    destruct (str_in T TASK_TYPES); [ | reflexivity].
    rewrite call_create_task_run, (bind_kwargs_clash _ _ key Hkey Hname).
    reflexivity.
Qed.

(** X2. A response with status 200 whose body is not JSON makes every
    call that reaches the network raise the [ValueError] of [r.json()]
    itself, which is no [ScaleException]: the decoding of a 200 body is
    outside the [try]. *)
Theorem ok_status_undecodable_body_raises_value_error
    (self : ScaleClient) (c : call) (w : world) (req : request) :
  request_of self c = Some req ->
  status_code (net w (sent w) req) = 200 ->
  json_body (net w (sent w) req) = None ->
  run self c w = (Raise (PyError ValueError None), after w req) /\
  issubclass ValueError ScaleException = false.
Proof.
  intros Hreq H200 Hbody. split; [ | reflexivity].
  apply (run_raise _ _ _ _ _ Hreq).
  unfold response_outcome, r_json. rewrite H200, Hbody. reflexivity.
Qed.

(** X3. For a response whose status is not 200 and whose body is JSON,
    the lookup of [error] is not guarded: an object without that field
    makes every call that reaches the network raise [KeyError] for
    [error], and a body that is not an object (a list, a string, a number,
    [true], [false], [null]) makes it raise [TypeError]; neither is caught
    by the [except ValueError] clause. *)
Theorem error_body_without_error_field
    (self : ScaleClient) (c : call) (w : world) (req : request) :
  request_of self c = Some req ->
  status_code (net w (sent w) req) <> 200 ->
  (forall fields,
     json_body (net w (sent w) req) = Some (JObj fields) ->
     dict_get "error" fields = None ->
     run self c w = (Raise (PyError KeyError (Some "error")), after w req)) /\
  (forall body,
     json_body (net w (sent w) req) = Some body ->
     (forall fields, body <> JObj fields) ->
     run self c w = (Raise (PyError TypeError None), after w req)).
Proof.
  intros Hreq H200. apply Z.eqb_neq in H200. split.
  - intros fields Hbody Hnone. apply (run_raise _ _ _ _ _ Hreq).
    unfold response_outcome. rewrite H200, Hbody. cbn. rewrite Hnone.
    reflexivity.
  - intros body Hbody Hnot. apply (run_raise _ _ _ _ _ Hreq).
    unfold response_outcome. rewrite H200, Hbody.
    destruct body; try reflexivity. destruct (Hnot fields eq_refl).
Qed.

(** X8. A call returns a value only after one request that the server
    answered with status 200 and a body that is JSON: no call returns a
    result for an error response, and none returns one without the
    network. *)
Theorem result_only_from_ok_json_response
    (self : ScaleClient) (c : call) (w w' : world) (r : result) :
  run self c w = (Return r, w') ->
  exists req d,
    request_of self c = Some req /\ w' = after w req /\
    status_code (net w (sent w) req) = 200 /\
    json_body (net w (sent w) req) = Some d.
Proof.
  intros Hrun.
  destruct (request_of self c) as [req|] eqn:Hreq.
  - destruct (response_outcome (net w (sent w) req)) as [d|e] eqn:Hout.
    + destruct (response_outcome_return _ _ Hout) as [H200 Hbody].
      exists req, d. repeat split; auto.
      pose proof (finish_world self c d (after w req)) as Hw.
      rewrite <- (run_ok _ _ _ _ _ Hreq Hout), Hrun in Hw. exact Hw.
    + rewrite (run_raise _ _ _ _ _ Hreq Hout) in Hrun. discriminate.
  - destruct (run_local self c w Hreq) as (e & Hrun' & _).
    rewrite Hrun' in Hrun. discriminate.
Qed.

Lemma list_batches_keys_are_tasks_keys (k : string) :
  str_in k list_batches_allowed_kwargs = true ->
  str_in k tasks_allowed_kwargs = true.
Proof.
  unfold str_in, list_batches_allowed_kwargs. cbn [existsb].
  intros H.
  repeat (apply orb_true_iff in H as [H | H];
          [apply String.eqb_eq in H; subst k; reflexivity | ]).
  discriminate.
Qed.

Lemma list_batches_kwargs_are_tasks_kwargs (kw : kwargs) :
  all_allowed list_batches_allowed_kwargs kw = true ->
  all_allowed tasks_allowed_kwargs kw = true.
Proof.
  unfold all_allowed. rewrite !forallb_forall.
  intros H k Hin. apply list_batches_keys_are_tasks_keys. exact (H k Hin).
Qed.

Lemma paginate_as_batches (self : ScaleClient) (response : json) (w : world) :
  paginate (fun doc => new_Batch doc self) response w =
  fmap as_batchlist (paginate (fun json => new_Task json self) response) w.
Proof.
  rewrite fmap_run. unfold paginate, bind, lift, ret.
  repeat match goal with
         | |- context [match ?o with Return _ => _ | Raise _ => _ end] =>
             destruct o; cbn; try reflexivity
         end.
  unfold as_batchlist, Paginator_init. cbn. rewrite map_map. reflexivity.
Qed.

(** X4. [list_batches] queries the endpoint of [tasks]: for keyword
    arguments it accepts, it sends the very GET request that [tasks]
    sends, to [https://api.scale.com/v1/tasks], and raises what [tasks]
    raises or returns the list that [tasks] returns with each document
    wrapped as a [Batch] instead of a [Task]. *)
Theorem list_batches_queries_tasks_endpoint
    (self : ScaleClient) (kw : kwargs) (w : world) :
  all_allowed list_batches_allowed_kwargs kw = true ->
  list_batches self kw w = fmap as_batchlist (tasks self kw) w /\
  sent (snd (list_batches self kw w)) =
  (sent w ++ [mkRequest GET "https://api.scale.com/v1/tasks"
                [("Content-Type", "application/json")] (api_key self, "")
                (Some kw) None])%list.
Proof.
  intros Hall.
  pose proof (list_batches_kwargs_are_tasks_kwargs kw Hall) as Hall'.
  assert (Heq : list_batches self kw w = fmap as_batchlist (tasks self kw) w).
  { rewrite fmap_run, (list_batches_run _ _ _ Hall), (tasks_run _ _ _ Hall').
    cbn zeta. destruct (response_outcome _) as [d|e]; [ | reflexivity].
    rewrite paginate_as_batches, fmap_run. reflexivity. }
  split; [exact Heq | ].
  pose proof (run_world self (list_batches_call kw) w) as Hw.
  cbn [run request_of] in Hw. rewrite Hall, fmap_run in Hw.
  destruct (list_batches self kw w) as [[l|e] w']; cbn in Hw |- *;
    rewrite Hw; reflexivity.
Qed.

Lemma check_kwargs_first (allowed_kwargs : list string)
    (pre post : list string) (k : string) :
  forallb (fun key => str_in key allowed_kwargs) pre = true ->
  str_in k allowed_kwargs = false ->
  check_kwargs allowed_kwargs (pre ++ k :: post) =
  Raise (ScaleError ScaleInvalidRequest
           ("<Response [None]> Illegal parameter " ++ k
            ++ " for ScaleClient.tasks()") None).
Proof.
  intros Hpre Hk. induction pre as [|key rest IH]; cbn.
  - rewrite Hk. reflexivity.
  - cbn in Hpre. apply andb_true_iff in Hpre as [Hkey Hrest].
    rewrite Hkey. exact (IH Hrest).
Qed.

(** X5. The validation loop stops at the first illegal key, in the order
    of the keyword arguments: the keys after it are not looked at, the
    message names that key, and the message of [list_batches] names
    [ScaleClient.tasks()] as that of [tasks] does. *)
Theorem first_illegal_key_is_reported
    (self : ScaleClient) (pre post : kwargs) (k : string) (v : json)
    (w : world) :
  (all_allowed tasks_allowed_kwargs pre = true ->
   str_in k tasks_allowed_kwargs = false ->
   tasks self (pre ++ (k, v) :: post)%list w =
   (Raise (ScaleError ScaleInvalidRequest
             ("<Response [None]> Illegal parameter " ++ k
              ++ " for ScaleClient.tasks()") None), w)) /\
  (all_allowed list_batches_allowed_kwargs pre = true ->
   str_in k list_batches_allowed_kwargs = false ->
   list_batches self (pre ++ (k, v) :: post)%list w =
   (Raise (ScaleError ScaleInvalidRequest
             ("<Response [None]> Illegal parameter " ++ k
              ++ " for ScaleClient.tasks()") None), w)).
Proof.
  split; intros Hpre Hk.
  - unfold tasks, bind, lift, dict_keys. rewrite map_app. cbn [map fst].
    rewrite (check_kwargs_first _ _ _ _ Hpre Hk). reflexivity.
  - unfold list_batches, bind, lift, dict_keys. rewrite map_app.
    cbn [map fst].
    rewrite (check_kwargs_first _ _ _ _ Hpre Hk). reflexivity.
Qed.

(** X6. Only the sixteen types get an attribute: for a type [T] outside
    [TASK_TYPES], calling [create_<T>_task] raises [AttributeError] and
    sends nothing; yet [create_task] does not compare its type with
    [TASK_TYPES] and sends its POST to [task/<T>] all the same. *)
Theorem unknown_type_has_no_creator
    (self : ScaleClient) (T : string) (kw : kwargs) (w : world) :
  ~ In T TASK_TYPES ->
  call_creator self T kw w = (Raise (PyError AttributeError None), w) /\
  sent (snd (create_task self T kw w)) =
  (sent w ++ [mkRequest POST ("https://api.scale.com/v1/task/" ++ T)
                [("Content-Type", "application/json")] (api_key self, "")
                None (Some kw)])%list.
Proof.
  intros Hnot. split.
  - unfold call_creator.
    rewrite creators_getattr, (creator_name_unknown T Hnot). reflexivity.
  - pose proof (run_world self (create_task_call T kw) w) as Hw.
    cbn [run request_of] in Hw. rewrite fmap_run in Hw.
    destruct (create_task self T kw w) as [[t|e] w']; cbn in Hw |- *;
      rewrite Hw; reflexivity.
Qed.

Lemma finish_returns (self : ScaleClient) (c : call) (d : json)
    (w w' : world) (r : result) :
  finish self c d w = (Return r, w') ->
  Forall (fun cl => cl = self) (result_clients r) /\ result_docs_agree r.
Proof.
  destruct c; cbn [finish]; unfold ret;
    try (intros [= <- _]; cbn; auto); rewrite fmap_run.
  - destruct (paginate _ d w) as [[l|e] w''] eqn:Hp; [ | discriminate].
    intros [= <- _]. destruct (paginate_returns _ _ _ _ _ Hp) as (seq & He & Hd).
    cbn. rewrite He, Hd. split; [ | reflexivity].
    rewrite map_map. apply Forall_forall. intros cl Hin.
    apply in_map_iff in Hin as (x & <- & _). reflexivity.
  - destruct (paginate _ d w) as [[l|e] w''] eqn:Hp; [ | discriminate].
    intros [= <- _]. destruct (paginate_returns _ _ _ _ _ Hp) as (seq & He & Hd).
    cbn. rewrite He, Hd. split; [ | reflexivity].
    rewrite map_map. apply Forall_forall. intros cl Hin.
    apply in_map_iff in Hin as (x & <- & _). reflexivity.
Qed.

Lemma finish_raises (self : ScaleClient) (c : call) (d : json)
    (w w' : world) (e : pyexc) :
  finish self c d w = (Raise e, w') ->
  exists cls arg,
    e = PyError cls arg /\
    (cls = KeyError \/ cls = TypeError \/ cls = AttributeError).
Proof.
  destruct c; cbn [finish]; unfold ret; try discriminate; rewrite fmap_run.
  - destruct (paginate _ d w) as [[l|e'] w''] eqn:Hp; [discriminate | ].
    intros [= <- _]. exact (paginate_raises_py _ _ _ _ _ Hp).
  - destruct (paginate _ d w) as [[l|e'] w''] eqn:Hp; [discriminate | ].
    intros [= <- _]. exact (paginate_raises_py _ _ _ _ _ Hp).
Qed.

Lemma run_local_class (self : ScaleClient) (c : call) (w : world) :
  request_of self c = None ->
  exists e,
    run self c w = (Raise e, w) /\
    (exc_class e = ScaleInvalidRequest \/ exc_class e = AttributeError \/
     exc_class e = TypeError).
Proof.
  destruct c; cbn [run request_of]; try discriminate; rewrite fmap_run.
  - destruct (all_allowed tasks_allowed_kwargs kw) eqn:Hall; [discriminate | ].
    intros _. destruct (all_allowed_false_inv _ _ Hall) as (k & Hin & Hk).
    destruct (tasks_illegal self kw w k Hin Hk) as (key & _ & _ & Hrun).
    rewrite Hrun. eexists; split; [reflexivity | left; reflexivity].
  - destruct (all_allowed list_batches_allowed_kwargs kw) eqn:Hall;
      [discriminate | ].
    intros _. destruct (all_allowed_false_inv _ _ Hall) as (k & Hin & Hk).
    destruct (list_batches_illegal self kw w k Hin Hk) as (key & _ & _ & Hrun).
    rewrite Hrun. eexists; split; [reflexivity | left; reflexivity].
  - rewrite typed_creator_run.
    destruct (str_in task_type TASK_TYPES).
    + rewrite call_create_task_run.
      destruct (bind_kwargs _ kw) as [u|e] eqn:Hb; [discriminate | ].
      intros _. rewrite (bind_kwargs_raises _ _ _ Hb).
      eexists; split; [reflexivity | right; right; reflexivity].
    + intros _. eexists; split; [reflexivity | right; left; reflexivity].
Qed.

Lemma response_outcome_generic (r : response) (e : pyexc) :
  response_outcome r = Raise e ->
  exc_class e = ScaleException ->
  status_code r <> 200 /\ status_code r <> 400 /\
  exc_code e = Some (Some (status_code r)).
Proof.
  unfold response_outcome, error_class, r_json, ScaleException_init.
  destruct (status_code r =? 200) eqn:H200.
  - destruct (json_body r); intros [= <-]; discriminate.
  - apply Z.eqb_neq in H200.
    destruct (status_code r =? 400) eqn:H400.
    + destruct (json_body r) as [body|]; [ | intros [= <-]; discriminate].
      destruct (py_getitem body "error") eqn:Hg; intros [= <-];
        [discriminate | ].
      unfold py_getitem in Hg.
      destruct body; try (injection Hg as <-; discriminate).
      destruct (dict_get "error" fields); [discriminate | ].
      injection Hg as <-. discriminate.
    + apply Z.eqb_neq in H400.
      destruct (json_body r) as [body|]; [ | intros [= <-]; cbn; auto].
      destruct (py_getitem body "error") eqn:Hg; intros [= <-]; cbn; auto.
      unfold py_getitem in Hg.
      destruct body; try (injection Hg as <-; discriminate).
      destruct (dict_get "error" fields); [discriminate | ].
      injection Hg as <-. discriminate.
Qed.

(** X7. Every entity that a call returns refers to the client that made
    the call, the members of a returned list included; and in a returned
    list the content of the list and its attribute [docs] are the same
    wrappers. *)
Theorem results_refer_to_the_client
    (self : ScaleClient) (c : call) (w w' : world) (r : result) :
  run self c w = (Return r, w') ->
  Forall (fun cl => cl = self) (result_clients r) /\ result_docs_agree r.
Proof.
  intros Hrun.
  destruct (request_of self c) as [req|] eqn:Hreq.
  - destruct (response_outcome (net w (sent w) req)) as [d|e] eqn:Hout.
    + rewrite (run_ok _ _ _ _ _ Hreq Hout) in Hrun.
      exact (finish_returns _ _ _ _ _ _ Hrun).
    + rewrite (run_raise _ _ _ _ _ Hreq Hout) in Hrun. discriminate.
  - destruct (run_local self c w Hreq) as (e & Hrun' & _).
    rewrite Hrun' in Hrun. discriminate.
Qed.

(** X9. A call raises an exception whose class is [ScaleException]
    itself only after one request that the server answered with a status
    other than 200 and 400, and the code of the exception is that status:
    neither the local check, nor a 200 or a 400 response, nor the reading
    of a listing raises it. *)
Theorem scale_exception_only_for_other_status
    (self : ScaleClient) (c : call) (w w' : world) (e : pyexc) :
  run self c w = (Raise e, w') ->
  exc_class e = ScaleException ->
  exists req,
    request_of self c = Some req /\ w' = after w req /\
    status_code (net w (sent w) req) <> 200 /\
    status_code (net w (sent w) req) <> 400 /\
    exc_code e = Some (Some (status_code (net w (sent w) req))).
Proof.
  intros Hrun Hcls.
  destruct (request_of self c) as [req|] eqn:Hreq.
  - exists req.
    destruct (response_outcome (net w (sent w) req)) as [d|e0] eqn:Hout.
    + rewrite (run_ok _ _ _ _ _ Hreq Hout) in Hrun.
      destruct (finish_raises _ _ _ _ _ _ Hrun) as (cls & arg & -> & Hc).
      cbn in Hcls. subst cls. destruct Hc as [Hc | [Hc | Hc]]; discriminate.
    + rewrite (run_raise _ _ _ _ _ Hreq Hout) in Hrun.
      injection Hrun as <- <-.
      destruct (response_outcome_generic _ _ Hout Hcls) as (H2 & H4 & Hc).
      auto.
  - destruct (run_local_class self c w Hreq) as (e0 & Hrun0 & Hc).
    rewrite Hrun0 in Hrun. injection Hrun as <- _.
    rewrite Hcls in Hc. destruct Hc as [Hc | [Hc | Hc]]; discriminate.
Qed.

Lemma first_missing_after (fields : list (string * json))
    (pre post : list string) (k : string) :
  required_fields = (pre ++ k :: post)%list ->
  (forall k', In k' pre -> dict_get k' fields <> None) ->
  dict_get k fields = None ->
  first_missing fields = Some k.
Proof.
  unfold first_missing. intros -> Hpre Hk.
  induction pre as [|k' rest IH]; cbn.
  - rewrite Hk. reflexivity.
  - destruct (dict_get k' fields) eqn:Hk'.
    + apply IH. intros k'' Hin. apply Hpre. right. exact Hin.
    + destruct (Hpre k' (or_introl eq_refl) Hk').
Qed.

(** X10. The [KeyError] of an incomplete listing names the first field
    that is missing in the order in which the code reads them, [docs],
    [total], [limit], [offset], [has_more]: the fields after it are not
    looked at, and those [list_batches] reads are those [tasks] reads. *)
Theorem listing_key_error_names_first_missing
    (self : ScaleClient) (kw : kwargs) (w : world) (body_text : string)
    (fields : list (string * json)) (pre post : list string) (k : string) :
  let req := get_request self "tasks" kw in
  net w (sent w) req = mkResponse 200 body_text (Some (JObj fields)) ->
  (forall items, dict_get "docs" fields = Some items ->
                 exists seq, py_iter items = Return seq) ->
  ["docs"; "total"; "limit"; "offset"; "has_more"] = (pre ++ k :: post)%list ->
  (forall k', In k' pre -> dict_get k' fields <> None) ->
  dict_get k fields = None ->
  (all_allowed tasks_allowed_kwargs kw = true ->
   tasks self kw w = (Raise (PyError KeyError (Some k)), after w req)) /\
  (all_allowed list_batches_allowed_kwargs kw = true ->
   list_batches self kw w = (Raise (PyError KeyError (Some k)), after w req)).
Proof.
  intros req Hr Hiter Hsplit Hpre Hk.
  pose proof (first_missing_after fields pre post k Hsplit Hpre Hk) as Hfirst.
  split; intros Hall.
  - rewrite (tasks_run _ _ _ Hall). cbn zeta. fold req. rewrite Hr.
    rewrite (response_outcome_200 _ (JObj fields)) by reflexivity.
    apply paginate_missing; assumption.
  - rewrite (list_batches_run _ _ _ Hall). cbn zeta. fold req. rewrite Hr.
    rewrite (response_outcome_200 _ (JObj fields)) by reflexivity.
    apply paginate_missing; assumption.
Qed.

Lemma paginate_not_iterable {E} (wrap : json -> E)
    (fields : list (string * json)) (v : json) (w : world) :
  dict_get "docs" fields = Some v ->
  py_iter v = Raise (PyError TypeError None) ->
  paginate wrap (JObj fields) w = (Raise (PyError TypeError None), w).
Proof.
  intros Hd Hi. unfold paginate, bind, lift, py_getitem.
  rewrite Hd, Hi. reflexivity.
Qed.

(** X11. A listing whose [docs] is [null], a boolean or a number makes
    [tasks] and [list_batches] raise [TypeError] after their one request,
    whatever the other fields are and even when some are missing: [docs]
    is read and iterated before [total] is looked up. *)
Theorem listing_docs_not_iterable
    (self : ScaleClient) (kw : kwargs) (w : world) (body_text : string)
    (fields : list (string * json)) (v : json) :
  let req := get_request self "tasks" kw in
  net w (sent w) req = mkResponse 200 body_text (Some (JObj fields)) ->
  dict_get "docs" fields = Some v ->
  (v = JNull \/ (exists b, v = JBool b) \/ (exists z, v = JInt z) \/
   (exists lit, v = JFloat lit)) ->
  (all_allowed tasks_allowed_kwargs kw = true ->
   tasks self kw w = (Raise (PyError TypeError None), after w req)) /\
  (all_allowed list_batches_allowed_kwargs kw = true ->
   list_batches self kw w = (Raise (PyError TypeError None), after w req)).
Proof.
  intros req Hr Hd Hv.
  assert (Hi : py_iter v = Raise (PyError TypeError None)).
  { destruct Hv as [-> | [[b ->] | [[z ->] | [lit ->]]]]; reflexivity. }
  split; intros Hall.
  - rewrite (tasks_run _ _ _ Hall). cbn zeta. fold req. rewrite Hr.
    rewrite (response_outcome_200 _ (JObj fields)) by reflexivity.
    exact (paginate_not_iterable _ _ _ _ Hd Hi).
  - rewrite (list_batches_run _ _ _ Hall). cbn zeta. fold req. rewrite Hr.
    rewrite (response_outcome_200 _ (JObj fields)) by reflexivity.
    exact (paginate_not_iterable _ _ _ _ Hd Hi).
Qed.

Lemma client_request_get (self : ScaleClient) (endpoint : string)
    (params : kwargs) :
  client_request self (get_request self endpoint params).
Proof.
  unfold client_request. cbn.
  split; [reflexivity | ]. split; [reflexivity | ].
  split; [destruct endpoint; reflexivity | ].
  split; [discriminate | reflexivity].
Qed.

Lemma client_request_post (self : ScaleClient) (endpoint : string)
    (payload : kwargs) :
  client_request self (post_request self endpoint payload).
Proof.
  unfold client_request. cbn.
  split; [reflexivity | ]. split; [reflexivity | ].
  split; [destruct endpoint; reflexivity | ].
  split; [reflexivity | discriminate].
Qed.

Lemma request_of_client_request (self : ScaleClient) (c : call)
    (req : request) :
  request_of self c = Some req -> client_request self req.
Proof.
  destruct c; cbn [request_of];
    repeat match goal with
           | |- context [if ?b then _ else _] => destruct b
           | |- context [match ?o with Some _ => _ | None => _ end] =>
               destruct o
           | |- context [match ?o with Return _ => _ | Raise _ => _ end] =>
               destruct o
           end;
    try discriminate; intros [= <-];
    (apply client_request_get || apply client_request_post).
Qed.

(** X12. Every request that a call adds to the log carries the key of
    the client as the user name of basic authentication with an empty
    password and the JSON content type, goes to a URL under
    [https://api.scale.com/v1/], and has its arguments in [params] when it
    is a GET and in [json] when it is a POST, never in both. *)
Theorem requests_carry_the_credential
    (self : ScaleClient) (c : call) (w : world) (req : request) :
  In req (sent (snd (run self c w))) ->
  In req (sent w) \/ client_request self req.
Proof.
  intros Hin.
  rewrite run_world in Hin.
  destruct (request_of self c) as [req'|] eqn:Hreq; [ | auto].
  cbn in Hin. apply in_app_or in Hin as [Hin | [<- | []]]; [auto | ].
  right. exact (request_of_client_request _ _ _ Hreq).
Qed.

End Client.

(** ** The theorems at concrete inputs *)

Lemma unknown_option_rejected_witness :
  (exists e, tasks no_str a_client illegal_kw (always bad_field_response) =
             (Raise e, always bad_field_response) /\
             exc_class e = ScaleInvalidRequest) /\
  (exists e, list_batches no_str a_client illegal_kw
               (always bad_field_response) =
             (Raise e, always bad_field_response) /\
             exc_class e = ScaleInvalidRequest).
Proof.
  destruct (unknown_option_rejected_before_network no_str a_client illegal_kw
              (always bad_field_response) "color"
              (or_intror (or_introl eq_refl))) as [Ht Hb].
  split; [apply Ht | apply Hb]; reflexivity.
Defined.

Lemma local_invalid_request_witness :
  (exists e, tasks no_str a_client illegal_kw (always bad_field_response) =
             (Raise e, always bad_field_response) /\
             exc_class e = ScaleInvalidRequest /\ exc_code e = Some None) /\
  (exists e, list_batches no_str a_client illegal_kw
               (always bad_field_response) =
             (Raise e, always bad_field_response) /\
             exc_class e = ScaleInvalidRequest /\ exc_code e = Some None) /\
  exists req,
    request_of a_client (fetch_task_call "t1") = Some req /\
    status_code (net (always bad_field_response)
                   (sent (always bad_field_response)) req) = 400 /\
    exc_code (ScaleError ScaleInvalidRequest "<Response [400]> bad field"
                (Some 400)) = Some (Some 400).
Proof.
  destruct (local_invalid_request_has_no_code no_str a_client illegal_kw
              (always bad_field_response) "color"
              (or_intror (or_introl eq_refl))) as (Ht & Hb & Hr).
  split; [apply Ht; reflexivity | ].
  split; [apply Hb; reflexivity | ].
  destruct (Hr (fetch_task_call "t1")
              (ScaleError ScaleInvalidRequest "<Response [400]> bad field"
                 (Some 400))
              (after (always bad_field_response)
                 (get_request a_client "task/t1" []))
              eq_refl eq_refl) as [[Hw _] | (req & Hreq & _ & H400 & Hcode)].
  - discriminate Hw.
  - exists req. auto.
Defined.

Lemma invalid_request_handlers_witness :
  let h := fun _ : pyexc => ret (ATask (new_Task JNull a_client)) in
  (exists e,
     exc_class e = ScaleInvalidRequest /\
     try_except (run no_str a_client (tasks_call illegal_kw)) ValueError h
       (always bad_field_response) = h e (always bad_field_response)) /\
  (exists e,
     exc_class e = ScaleInvalidRequest /\
     try_except (run no_str a_client (fetch_task_call "t1")) ScaleException h
       (always bad_field_response) =
     h e (after (always bad_field_response)
            (get_request a_client "task/t1" []))).
Proof.
  intros h.
  destruct (invalid_request_handlers_observe no_str a_client
              (always bad_field_response) h) as (_ & _ & _ & Hlocal & H400).
  split.
  - destruct (proj1 (Hlocal illegal_kw "color"
                       (or_intror (or_introl eq_refl))) eq_refl)
      as (e & Hcls & _ & Hv).
    exists e. split; assumption.
  - destruct (H400 (fetch_task_call "t1")
                (get_request a_client "task/t1" []) (JStr "bad field")
                eq_refl eq_refl eq_refl) as (e & Hcls & _ & Hs & _).
    exists e. split; assumption.
Defined.

Lemma bad_request_witness :
  run no_str a_client (fetch_task_call "t1") (always bad_field_response) =
  (Raise (ScaleError ScaleInvalidRequest "<Response [400]> bad field"
            (Some 400)),
   after (always bad_field_response) (get_request a_client "task/t1" [])) /\
  exists msg,
    fetch_task no_str a_client "t1" (always bad_field_response) =
    (Raise (ScaleError ScaleInvalidRequest msg (Some 400)),
     after (always bad_field_response) (get_request a_client "task/t1" [])) /\
    contains "bad field" msg = true.
Proof.
  destruct (bad_request_raises_invalid_request no_str a_client
              (always bad_field_response)) as [Hall Hfetch].
  split.
  - exact (Hall (fetch_task_call "t1") (get_request a_client "task/t1" [])
             (JStr "bad field") eq_refl eq_refl eq_refl).
  - exact (Hfetch "t1" (text bad_field_response) eq_refl).
Defined.

Lemma other_status_witness :
  run no_str a_client (cancel_task_call "t1")
    (always (mkResponse 503 "busy" (Some (JObj [("error", JStr "busy")])))) =
  (Raise (ScaleError ScaleException "<Response [503]> busy" (Some 503)),
   after (always (mkResponse 503 "busy" (Some (JObj [("error", JStr "busy")]))))
     (post_request a_client "task/t1/cancel" [])) /\
  run no_str a_client (create_batch_call (JStr "p") (JStr "b1") JNull)
    (always exploded_response) =
  (Raise (ScaleError ScaleException "<Response [500]> server exploded"
            (Some 500)),
   after (always exploded_response)
     (post_request a_client "batches"
        [("project", JStr "p"); ("name", JStr "b1"); ("callback", JNull)])).
Proof.
  split.
  - destruct (other_status_raises_scale_exception no_str a_client
                (always (mkResponse 503 "busy"
                           (Some (JObj [("error", JStr "busy")])))))
      as (Hall & _ & _).
    refine (Hall (cancel_task_call "t1")
              (post_request a_client "task/t1/cancel" [])
              (JStr "busy") eq_refl _ _ eq_refl); discriminate.
  - destruct (other_status_raises_scale_exception no_str a_client
                (always exploded_response)) as (_ & _ & H500).
    exact (H500 (create_batch_call (JStr "p") (JStr "b1") JNull) _
             eq_refl eq_refl).
Defined.

Lemma typed_creator_witness :
  exists m : method,
    getattr "create_imageannotation_task" (ScaleClient_creators no_str) =
    Some m /\
    m a_client [("attachment", JStr "http://x/1.png")]
      (always bad_field_response) =
    create_task no_str a_client "imageannotation"
      [("attachment", JStr "http://x/1.png")] (always bad_field_response) /\
    m a_client [("task_type", JStr "x")] (always bad_field_response) =
    (Raise (PyError TypeError None), always bad_field_response).
Proof.
  destruct (typed_creator_is_create_task no_str "imageannotation")
    as (_ & m & Hget & Hm).
  - cbn. auto 10.
  - exists m. split; [exact Hget | ]. split.
    + destruct (Hm a_client [("attachment", JStr "http://x/1.png")]
                  (always bad_field_response)) as (_ & _ & Hfree & _).
      apply Hfree. intros key [<- | []] [H | [H | []]]; discriminate H.
    + destruct (Hm a_client [("task_type", JStr "x")]
                  (always bad_field_response)) as (_ & _ & _ & Hclash).
      exact (proj1 (Hclash "task_type" (or_introl eq_refl)
                      (or_intror (or_introl eq_refl)))).
Defined.

Lemma paginator_mirrors_witness :
  exists l : Tasklist,
    tasks no_str a_client legal_kw (always (listing_response 100)) =
    (Return l,
     after (always (listing_response 100))
       (get_request a_client "tasks" legal_kw)) /\
    List.length (elems l) = 2%nat /\
    limit l = JInt 100 /\ has_more l = JBool false.
Proof.
  destruct (paginator_mirrors_response no_str a_client legal_kw
              (always (listing_response 100))
              (text (listing_response 100)) _ (JArr [doc1; doc2])
              [doc1; doc2] (JInt 2) (JInt 100) (JInt 0) (JBool false)
              eq_refl eq_refl eq_refl eq_refl eq_refl eq_refl eq_refl)
    as [Ht _].
  destruct (Ht eq_refl) as (l & Hrun & _ & Hlen & Hlim & Hmore & _).
  exists l. auto.
Defined.

Lemma tasks_two_docs_witness :
  exists l : Tasklist,
    tasks no_str a_client legal_kw (always (listing_response 100)) =
    (Return l,
     after (always (listing_response 100))
       (get_request a_client "tasks" legal_kw)) /\
    elems l = [new_Task doc1 a_client; new_Task doc2 a_client] /\
    total l = JInt 2 /\ has_more l = JBool false /\ next_token l = JNull.
Proof.
  destruct (tasks_two_docs no_str a_client legal_kw
              (always (listing_response 100))
              (text (listing_response 100)) doc1 doc2 eq_refl eq_refl)
    as (l & Hrun & Helems & _ & _ & Htot & _ & _ & Hmore & Hnext).
  exists l. auto.
Defined.

Lemma create_batch_witness :
  create_batch no_str a_client (JStr "p") (JStr "b1") (JStr "http://cb")
    (always batch_response) =
  (Return (new_Batch (JObj [("name", JStr "b1")]) a_client),
   after (always batch_response)
     (mkRequest POST "https://api.scale.com/v1/batches"
        [("Content-Type", "application/json")] ("live_0123", "") None
        (Some [("project", JStr "p"); ("name", JStr "b1");
               ("callback", JStr "http://cb")]))).
Proof.
  exact (proj2 (create_batch_posts_once no_str a_client (JStr "p")
                  (JStr "b1") (JStr "http://cb") (always batch_response))
           (JObj [("name", JStr "b1")]) eq_refl eq_refl).
Defined.

Lemma listing_missing_field_witness :
  exists k,
    tasks no_str a_client legal_kw (always listing_without_total) =
    (Raise (PyError KeyError (Some k)),
     after (always listing_without_total)
       (get_request a_client "tasks" legal_kw)) /\
    list_batches no_str a_client legal_kw (always listing_without_total) =
    (Raise (PyError KeyError (Some k)),
     after (always listing_without_total)
       (get_request a_client "tasks" legal_kw)).
Proof.
  destruct (listing_missing_field_is_key_error no_str a_client legal_kw
              (always listing_without_total) (text listing_without_total)
              _ eq_refl) as [Hmiss _].
  - intros items [= <-]. exists []. reflexivity.
  - destruct (Hmiss "total" (or_intror (or_introl eq_refl)) eq_refl)
      as (k & _ & _ & _ & _ & Ht & Hb).
    exists k. split; [apply Ht | apply Hb]; reflexivity.
Defined.

(** ** Where the specification says more than the code does *)

(** C2 as stated fails: for the 400 response
    [{status_code: 400, error: "bad field"}] the message of the error that
    [fetch_task] raises is not the field [error] but
    ["<Response [400]> bad field"]; and for a 400 response whose body is
    JSON without a field [error], here [{}], [fetch_task] raises a
    [KeyError], which is no [ScaleInvalidRequest]. *)
Lemma bad_request_message_is_prefixed :
  (exists e,
     fst (fetch_task no_str a_client "t1" (always bad_field_response)) =
     Raise e /\
     exc_class e = ScaleInvalidRequest /\
     exc_message e = Some "<Response [400]> bad field" /\
     exc_message e <> Some "bad field") /\
  (exists e,
     fst (fetch_task no_str a_client "t1"
            (always (empty_object_response 400))) = Raise e /\
     e = PyError KeyError (Some "error") /\
     issubclass (exc_class e) ScaleInvalidRequest = false).
Proof.
  split; eexists; (split; [reflexivity | ]); repeat split; discriminate.
Qed.

(** C3 as stated fails: for the 500 response whose body is the text
    [server exploded] the message of the error that [fetch_task] raises
    is not that text but ["<Response [500]> server exploded"]; and for a
    500 response whose body is JSON without a field [error], here [{}],
    [fetch_task] raises a [KeyError], which is no [ScaleException]. *)
Lemma other_status_message_is_prefixed :
  (exists e,
     fst (fetch_task no_str a_client "t1" (always exploded_response)) =
     Raise e /\
     exc_class e = ScaleException /\
     exc_message e = Some "<Response [500]> server exploded" /\
     exc_message e <> Some "server exploded") /\
  (exists e,
     fst (fetch_task no_str a_client "t1"
            (always (empty_object_response 500))) = Raise e /\
     e = PyError KeyError (Some "error") /\
     issubclass (exc_class e) ScaleException = false).
Proof.
  split; eexists; (split; [reflexivity | ]); repeat split; discriminate.
Qed.

(** C5 as stated fails: when the server sends two documents and
    announces 1 as the limit, [tasks] returns a list of length 2 whose
    [limit] is 1. *)
Lemma paginator_longer_than_limit :
  exists l : Tasklist,
    fst (tasks no_str a_client legal_kw (always (listing_response 1))) =
    Return l /\
    limit l = JInt 1 /\
    List.length (elems l) = 2%nat /\
    ~ (Z.of_nat (List.length (elems l)) <= 1).
Proof.
  eexists. split; [reflexivity | ]. cbn. repeat split. lia.
Qed.

(** C9 as stated fails: a 400 response whose body is JSON without a field
    [error], here [{}], makes [fetch_task] raise a [KeyError], and neither
    a handler for [ScaleException] nor one for [ValueError] runs: the
    [KeyError] leaves the [try] statement. *)
Lemma bad_request_escapes_both_handlers :
  let h := fun _ : pyexc => ret (ATask (new_Task JNull a_client)) in
  status_code (empty_object_response 400) = 400 /\
  fst (try_except (run no_str a_client (fetch_task_call "t1"))
         ScaleException h (always (empty_object_response 400))) =
  Raise (PyError KeyError (Some "error")) /\
  fst (try_except (run no_str a_client (fetch_task_call "t1"))
         ValueError h (always (empty_object_response 400))) =
  Raise (PyError KeyError (Some "error")).
Proof.
  intros h. repeat split.
Qed.

(** C10 as stated fails: the 200 listing [{"docs": null}] lacks [total],
    [limit], [offset] and [has_more], and [tasks] and [list_batches] raise
    a [TypeError], which is no key-lookup error. *)
Lemma listing_missing_fields_type_error :
  json_body listing_null_docs = Some (JObj [("docs", JNull)]) /\
  dict_get "total" [("docs", JNull)] = None /\
  fst (tasks no_str a_client legal_kw (always listing_null_docs)) =
  Raise (PyError TypeError None) /\
  fst (list_batches no_str a_client batch_kw (always listing_null_docs)) =
  Raise (PyError TypeError None) /\
  issubclass TypeError KeyError = false /\
  issubclass TypeError LookupError = false.
Proof.
  repeat split.
Qed.

(** ** The further properties at concrete inputs *)

Lemma ok_status_undecodable_body_witness :
  run no_str a_client (get_batch_call "b1") (always ok_not_json_response) =
  (Raise (PyError ValueError None),
   after (always ok_not_json_response)
     (get_request a_client "batches/b1" [])).
Proof.
  exact (proj1 (ok_status_undecodable_body_raises_value_error no_str a_client
                  (get_batch_call "b1") (always ok_not_json_response)
                  (get_request a_client "batches/b1" [])
                  eq_refl eq_refl eq_refl)).
Defined.

Lemma error_body_without_error_field_witness :
  run no_str a_client (fetch_task_call "t1")
    (always (empty_object_response 503)) =
  (Raise (PyError KeyError (Some "error")),
   after (always (empty_object_response 503))
     (get_request a_client "task/t1" [])) /\
  run no_str a_client (cancel_task_call "t1") (always list_body_response) =
  (Raise (PyError TypeError None),
   after (always list_body_response)
     (post_request a_client "task/t1/cancel" [])).
Proof.
  split.
  - refine (proj1 (error_body_without_error_field no_str a_client
                     (fetch_task_call "t1")
                     (always (empty_object_response 503))
                     (get_request a_client "task/t1" []) eq_refl _)
              [] eq_refl eq_refl).
    discriminate.
  - refine (proj2 (error_body_without_error_field no_str a_client
                     (cancel_task_call "t1") (always list_body_response)
                     (post_request a_client "task/t1/cancel" []) eq_refl _)
              (JArr []) eq_refl _).
    + discriminate.
    + discriminate.
Defined.

Lemma list_batches_queries_tasks_witness :
  list_batches no_str a_client batch_kw (always (listing_response 100)) =
  fmap as_batchlist (tasks no_str a_client batch_kw)
    (always (listing_response 100)) /\
  sent (snd (list_batches no_str a_client batch_kw
               (always (listing_response 100)))) =
  [mkRequest GET "https://api.scale.com/v1/tasks"
     [("Content-Type", "application/json")] ("live_0123", "")
     (Some batch_kw) None].
Proof.
  exact (list_batches_queries_tasks_endpoint no_str a_client batch_kw
           (always (listing_response 100)) eq_refl).
Defined.

Lemma first_illegal_key_witness :
  tasks no_str a_client
    [("status", JStr "pending"); ("color", JStr "red"); ("size", JInt 3)]
    (always busy_response) =
  (Raise (ScaleError ScaleInvalidRequest
            "<Response [None]> Illegal parameter color for ScaleClient.tasks()"
            None),
   always busy_response) /\
  list_batches no_str a_client
    [("status", JStr "pending"); ("type", JStr "annotation");
     ("color", JStr "red")]
    (always busy_response) =
  (Raise (ScaleError ScaleInvalidRequest
            "<Response [None]> Illegal parameter type for ScaleClient.tasks()"
            None),
   always busy_response).
Proof.
  split.
  - exact (proj1 (first_illegal_key_is_reported no_str a_client
                    [("status", JStr "pending")] [("size", JInt 3)]
                    "color" (JStr "red") (always busy_response))
             eq_refl eq_refl).
  - exact (proj2 (first_illegal_key_is_reported no_str a_client
                    [("status", JStr "pending")] [("color", JStr "red")]
                    "type" (JStr "annotation") (always busy_response))
             eq_refl eq_refl).
Defined.

Lemma unknown_type_witness :
  call_creator no_str a_client "textcollection" []
    (always busy_response) =
  (Raise (PyError AttributeError None), always busy_response) /\
  sent (snd (create_task no_str a_client "textcollection" []
               (always busy_response))) =
  [mkRequest POST "https://api.scale.com/v1/task/textcollection"
     [("Content-Type", "application/json")] ("live_0123", "") None
     (Some [])].
Proof.
  refine (unknown_type_has_no_creator no_str a_client "textcollection" []
            (always busy_response) _).
  cbn. intros H.
  repeat (destruct H as [H | H]; [discriminate H | ]). exact H.
Defined.

Lemma results_refer_to_the_client_witness :
  exists l : Tasklist,
    fst (run no_str a_client (tasks_call legal_kw)
           (always (listing_response 100))) = Return (ATasklist l) /\
    Forall (fun cl => cl = a_client) (map task_client (elems l)) /\
    elems l = docs l.
Proof.
  eexists. split; [reflexivity | ].
  exact (results_refer_to_the_client no_str a_client (tasks_call legal_kw)
           (always (listing_response 100)) _ _ eq_refl).
Defined.

Lemma result_only_from_ok_json_witness :
  exists req d,
    request_of a_client (get_batch_call "b1") = Some req /\
    after (always batch_response) (get_request a_client "batches/b1" []) =
    after (always batch_response) req /\
    status_code (net (always batch_response)
                   (sent (always batch_response)) req) = 200 /\
    json_body (net (always batch_response)
                 (sent (always batch_response)) req) = Some d.
Proof.
  exact (result_only_from_ok_json_response no_str a_client
           (get_batch_call "b1") (always batch_response) _ _ eq_refl).
Defined.

Lemma scale_exception_only_witness :
  exists req,
    request_of a_client (fetch_task_call "t1") = Some req /\
    after (always busy_response) (get_request a_client "task/t1" []) =
    after (always busy_response) req /\
    status_code (net (always busy_response)
                   (sent (always busy_response)) req) <> 200 /\
    status_code (net (always busy_response)
                   (sent (always busy_response)) req) <> 400 /\
    exc_code (ScaleError ScaleException "<Response [503]> busy" (Some 503)) =
    Some (Some (status_code (net (always busy_response)
                               (sent (always busy_response)) req))).
Proof.
  exact (scale_exception_only_for_other_status no_str a_client
           (fetch_task_call "t1") (always busy_response) _ _
           eq_refl eq_refl).
Defined.

Lemma listing_key_error_first_missing_witness :
  tasks no_str a_client legal_kw (always listing_without_total) =
  (Raise (PyError KeyError (Some "total")),
   after (always listing_without_total)
     (get_request a_client "tasks" legal_kw)) /\
  list_batches no_str a_client batch_kw (always listing_without_total) =
  (Raise (PyError KeyError (Some "total")),
   after (always listing_without_total)
     (get_request a_client "tasks" batch_kw)).
Proof.
  split.
  - refine (proj1 (listing_key_error_names_first_missing no_str a_client
                     legal_kw (always listing_without_total)
                     (text listing_without_total) _
                     ["docs"] ["limit"; "offset"; "has_more"] "total"
                     eq_refl _ eq_refl _ eq_refl) eq_refl).
    + intros items [= <-]. exists []. reflexivity.
    + intros k' [<- | []]. discriminate.
  - refine (proj2 (listing_key_error_names_first_missing no_str a_client
                     batch_kw (always listing_without_total)
                     (text listing_without_total) _
                     ["docs"] ["limit"; "offset"; "has_more"] "total"
                     eq_refl _ eq_refl _ eq_refl) eq_refl).
    + intros items [= <-]. exists []. reflexivity.
    + intros k' [<- | []]. discriminate.
Defined.

Lemma listing_docs_not_iterable_witness :
  tasks no_str a_client legal_kw (always listing_null_docs) =
  (Raise (PyError TypeError None),
   after (always listing_null_docs)
     (get_request a_client "tasks" legal_kw)) /\
  list_batches no_str a_client batch_kw (always listing_null_docs) =
  (Raise (PyError TypeError None),
   after (always listing_null_docs) (get_request a_client "tasks" batch_kw)).
Proof.
  split.
  - exact (proj1 (listing_docs_not_iterable no_str a_client legal_kw
                    (always listing_null_docs) (text listing_null_docs)
                    _ JNull eq_refl eq_refl (or_introl eq_refl)) eq_refl).
  - exact (proj2 (listing_docs_not_iterable no_str a_client batch_kw
                    (always listing_null_docs) (text listing_null_docs)
                    _ JNull eq_refl eq_refl (or_introl eq_refl)) eq_refl).
Defined.

Lemma requests_carry_the_credential_witness :
  client_request a_client
    (mkRequest POST "https://api.scale.com/v1/batches"
       [("Content-Type", "application/json")] ("live_0123", "") None
       (Some [("project", JStr "p"); ("name", JStr "b1");
              ("callback", JNull)])).
Proof.
  destruct (requests_carry_the_credential no_str a_client
              (create_batch_call (JStr "p") (JStr "b1") JNull)
              (always busy_response)
              (mkRequest POST "https://api.scale.com/v1/batches"
                 [("Content-Type", "application/json")] ("live_0123", "")
                 None
                 (Some [("project", JStr "p"); ("name", JStr "b1");
                        ("callback", JNull)]))
              (or_introl eq_refl)) as [[] | H].
  exact H.
Defined.
